(** * Automation-Framework: credential store, content pipeline and HTTP facade

    A shallow embedding of the Python sources
    - [Suites/Linkdin/chatgpt_login.py]  (credential store, credential lookup),
    - [Suites/Youtube/script_gen.py], [voice_gen.py], [animation_gen.py],
      [video_edit.py]                    (the pipeline stages),
    - [pipeline.py]                      (the five-step driver),
    - [api_server.py]                    (the REST facade),
    together with the properties the specification states about them.

    Python code runs in a monad that threads the outside world (files,
    environment, console, clock, remote services) and may raise.  Third-party
    libraries appear as interfaces with their documented laws (Fernet, json) or
    as executable models (base64, the utf-8 codec, str methods). *)

From Stdlib Require Import ZArith NArith String Ascii List Bool Lia.
From Stdlib Require Import Strings.Byte DecimalString DecimalZ.
From stdpp Require Import base option gmap strings list.

Import ListNotations.
Set Warnings "-register-all".
Local Open Scope string_scope.
Local Open Scope Z_scope.

(** ** Python exceptions

    Every class below derives from [Exception], which is what the
    [except Exception] clauses of the sources catch. *)

Inductive exn : Type :=
| Exception (msg : string)
| ValueError (msg : string)
| ImportError (msg : string)
| OSError (msg : string)
| FileNotFoundError (msg : string)
| ConnectionError (msg : string)
| UnicodeDecodeError
| BinasciiError
| InvalidToken
| JSONDecodeError
| KeyError (key : string)
| TypeError (msg : string)
| AttributeError (msg : string)
| IndexError (msg : string)
| TaskFailedError (task_details : string)
| HTTPException (status_code : Z) (detail : string).

(** Decimal rendering of an HTTP status code, as [str(int)] does. *)
Definition str_of_Z (z : Z) : string :=
  NilZero.string_of_int (Z.to_int z).

(** [str(e)].  For [HTTPException] this is Starlette's [__str__],
    ["{status_code}: {detail}"]. *)
Definition str_exn (e : exn) : string :=
  match e with
  | Exception m | ValueError m | ImportError m | OSError m
  | FileNotFoundError m | ConnectionError m | TypeError m
  | AttributeError m | IndexError m => m
  | UnicodeDecodeError => "'utf-8' codec can't decode bytes"
  | BinasciiError => "Incorrect padding"
  | InvalidToken => ""
  | JSONDecodeError => "Expecting value"
  | KeyError k => "'" +:+ k +:+ "'"
  | TaskFailedError d => d
  | HTTPException sc d => str_of_Z sc +:+ ": " +:+ d
  end.

(** ** Python values that cross module boundaries (JSON documents, response
    bodies, stage artifacts). *)

Inductive pyvalue : Type :=
| PyNone
| PyBool (b : bool)
| PyNum (z : Z)
| PyFloat (micros : Z)                    (* a clock reading, in microseconds *)
| PyStr (s : string)
| PyList (items : list pyvalue)
| PyDict (members : list (string * pyvalue)).

(** [d[k]] / [d.get(k)] on the member list of a dict. *)
Fixpoint assoc (k : string) (d : list (string * pyvalue)) : option pyvalue :=
  match d with
  | [] => None
  | (k', v) :: d' => if String.eqb k k' then Some v else assoc k d'
  end.

Definition keys (d : list (string * pyvalue)) : list string := map fst d.

(** Truthiness, as used by [if x:] and [not x]. *)
Definition truthy (v : pyvalue) : bool :=
  match v with
  | PyNone => false
  | PyBool b => b
  | PyNum z | PyFloat z => negb (z =? 0)
  | PyStr s => negb (String.eqb s "")
  | PyList l => match l with [] => false | _ => true end
  | PyDict d => match d with [] => false | _ => true end
  end.

(** ** The outside world *)

(** An HTTP response as seen through [requests]. *)
Record Response : Type := {
  resp_ok : bool;
  resp_status_code : Z;
  resp_text : string;
  resp_json : option pyvalue;        (* [None]: the body is not JSON *)
  resp_content : list byte
}.

(** What the program did to the outside, in order. *)
Inductive event : Type :=
| EvPost (url : string)
| EvGet (url : string)
| EvSleep (seconds : Z)
| EvCall (function : string) (args : list pyvalue).

(** The clock is only read. *)
Record Clock : Type := {
  time_time : Z;                           (* time.time(), in microseconds *)
  calendar : string -> string;             (* datetime.now().strftime(fmt) *)
  isoformat_now : string;                  (* datetime.now().isoformat() *)
  mtime_iso : string -> string             (* isoformat of a file's st_mtime *)
}.

(** Scripted outcomes of the calls to the remote services, oldest first. *)
Record Remote : Type := {
  openai_replies : list (exn + string);
  elevenlabs_replies : list (exn + list (list byte));
  runway_replies : list (exn + list string);
  http_replies : list (exn + Response)
}.

Record World : Type := {
  files : gmap string string;              (* path ↦ content *)
  environ : gmap string string;            (* os.environ *)
  stdout : list string;                    (* lines printed so far *)
  stdin : list string;                     (* lines still to be typed *)
  io_faults : list (option string);        (* outcome of the next file-system calls *)
  urandom : list (list byte);              (* os.urandom draws still to come *)
  clock : Clock;
  remote : Remote;
  trace : list event
}.

Definition set_files (f : gmap string string) (w : World) : World :=
  {| files := f; environ := environ w; stdout := stdout w; stdin := stdin w;
     io_faults := io_faults w; urandom := urandom w; clock := clock w;
     remote := remote w; trace := trace w |}.

Definition set_stdout (o : list string) (w : World) : World :=
  {| files := files w; environ := environ w; stdout := o; stdin := stdin w;
     io_faults := io_faults w; urandom := urandom w; clock := clock w;
     remote := remote w; trace := trace w |}.

Definition set_stdin (i : list string) (w : World) : World :=
  {| files := files w; environ := environ w; stdout := stdout w; stdin := i;
     io_faults := io_faults w; urandom := urandom w; clock := clock w;
     remote := remote w; trace := trace w |}.

Definition set_io_faults (f : list (option string)) (w : World) : World :=
  {| files := files w; environ := environ w; stdout := stdout w; stdin := stdin w;
     io_faults := f; urandom := urandom w; clock := clock w;
     remote := remote w; trace := trace w |}.

Definition set_urandom (r : list (list byte)) (w : World) : World :=
  {| files := files w; environ := environ w; stdout := stdout w; stdin := stdin w;
     io_faults := io_faults w; urandom := r; clock := clock w;
     remote := remote w; trace := trace w |}.

Definition set_remote (r : Remote) (w : World) : World :=
  {| files := files w; environ := environ w; stdout := stdout w; stdin := stdin w;
     io_faults := io_faults w; urandom := urandom w; clock := clock w;
     remote := r; trace := trace w |}.

Definition set_trace (t : list event) (w : World) : World :=
  {| files := files w; environ := environ w; stdout := stdout w; stdin := stdin w;
     io_faults := io_faults w; urandom := urandom w; clock := clock w;
     remote := remote w; trace := t |}.

(** ** The monad of Python computations *)

Inductive Result (A : Type) : Type :=
| Ret (a : A)
| Raise (e : exn).
Arguments Ret {A} a.
Arguments Raise {A} e.

Definition M (A : Type) : Type := World -> Result A * World.

Definition ret {A} (a : A) : M A := fun w => (Ret a, w).
Definition raise {A} (e : exn) : M A := fun w => (Raise e, w).

Definition bind {A B} (c : M A) (k : A -> M B) : M B :=
  fun w => match c w with
           | (Ret a, w') => k a w'
           | (Raise e, w') => (Raise e, w')
           end.

(** [try: c  except Exception as e: h e] *)
Definition try_except {A} (c : M A) (h : exn -> M A) : M A :=
  fun w => match c w with
           | (Ret a, w') => (Ret a, w')
           | (Raise e, w') => h e w'
           end.

Declare Scope py_scope.
Delimit Scope py_scope with py.
Notation "x <- c ;; k" := (bind c (fun x => k))
  (at level 90, c at level 89, right associativity) : py_scope.
Notation "c ;;; k" := (bind c (fun _ => k))
  (at level 90, right associativity) : py_scope.
Local Open Scope py_scope.

(** *** Primitive effects *)

Definition print (line : string) : M unit :=
  fun w => (Ret tt, set_stdout (stdout w ++ [line]) w).

(** [input(prompt)]: the prompt is printed, the next typed line is returned
    (end of input is the empty line). *)
Definition input (prompt : string) : M string :=
  fun w => match stdin w with
           | [] => (Ret "", set_stdout (stdout w ++ [prompt]) w)
           | l :: ls => (Ret l, set_stdin ls (set_stdout (stdout w ++ [prompt]) w))
           end.

Definition getenv (name : string) : M (option string) :=
  fun w => (Ret (environ w !! name), w).

Definition now_time : M Z := fun w => (Ret (time_time (clock w)), w).

Definition now_strftime (fmt : string) : M string :=
  fun w => (Ret (calendar (clock w) fmt), w).

Definition now_isoformat : M string :=
  fun w => (Ret (isoformat_now (clock w)), w).

Definition log (ev : event) : M unit :=
  fun w => (Ret tt, set_trace (trace w ++ [ev]) w).

Definition sleep (seconds : Z) : M unit := log (EvSleep seconds).

(** Every call into the file system first meets the environment: the head of
    [io_faults] says whether it goes through ([None], also when the list is
    exhausted) or fails with an [OSError]. *)
Definition io_gate : M unit :=
  fun w => match io_faults w with
           | [] => (Ret tt, w)
           | None :: fs => (Ret tt, set_io_faults fs w)
           | Some msg :: fs => (Raise (OSError msg), set_io_faults fs w)
           end.

(** [Path.exists()] *)
Definition path_exists (p : string) : M bool :=
  fun w => (Ret (bool_decide (is_Some (files w !! p))), w).

(** [with open(p, 'r') as f: f.read()] *)
Definition read_file (p : string) : M string :=
  io_gate ;;;
  fun w => match files w !! p with
           | Some c => (Ret c, w)
           | None => (Raise (FileNotFoundError p), w)
           end.

(** [with open(p, 'w') as f: f.write(c)]: the file is created or truncated, and
    holds exactly [c] afterwards. *)
Definition write_file (p : string) (c : string) : M unit :=
  io_gate ;;;
  fun w => (Ret tt, set_files (<[p := c]> (files w)) w).

(** [Path.unlink()] *)
Definition unlink (p : string) : M unit :=
  io_gate ;;;
  fun w => match files w !! p with
           | Some _ => (Ret tt, set_files (delete p (files w)) w)
           | None => (Raise (FileNotFoundError p), w)
           end.

(** [os.urandom]: the next draw of the entropy source. *)
Definition draw_random : M (list byte) :=
  fun w => match urandom w with
           | [] => (Ret [], w)
           | r :: rs => (Ret r, set_urandom rs w)
           end.

(** Whether the next file-system call goes through. *)
Definition io_passes (w : World) : bool :=
  match io_faults w with
  | Some _ :: _ => false
  | _ => true
  end.

(** Whether the next [n] file-system calls all go through. *)
Definition io_calm (n : nat) (w : World) : bool :=
  forallb (fun f => match f with None => true | Some _ => false end)
    (firstn n (io_faults w)).

(** The next draw of the entropy source. *)
Definition next_draw (w : World) : list byte :=
  match urandom w with
  | [] => []
  | r :: _ => r
  end.

(** ** str and bytes

    A Python [str] is a [string]; [bytes] is a [list byte].  Text is held in
    its utf-8 form, so [str.encode()] keeps the octets and [bytes.decode()]
    checks that the octets are well-formed utf-8. *)

Definition str_encode (s : string) : list byte := list_byte_of_string s.

Definition is_cont (n : N) : bool := ((128 <=? n) && (n <=? 191))%N.

Fixpoint utf8_valid (bs : list byte) : bool :=
  match bs with
  | [] => true
  | b0 :: r0 =>
    let c0 := Byte.to_N b0 in
    if (c0 <? 128)%N then utf8_valid r0
    else match r0 with
    | [] => false
    | b1 :: r1 =>
      let c1 := Byte.to_N b1 in
      if ((194 <=? c0) && (c0 <=? 223))%N then is_cont c1 && utf8_valid r1
      else match r1 with
      | [] => false
      | b2 :: r2 =>
        let c2 := Byte.to_N b2 in
        if ((224 <=? c0) && (c0 <=? 239))%N then
          is_cont c1 && is_cont c2
          && (if (c0 =? 224)%N then (160 <=? c1)%N else true)
          && (if (c0 =? 237)%N then (c1 <=? 159)%N else true)
          && utf8_valid r2
        else match r2 with
        | [] => false
        | b3 :: r3 =>
          let c3 := Byte.to_N b3 in
          ((240 <=? c0) && (c0 <=? 244))%N
          && is_cont c1 && is_cont c2 && is_cont c3
          && (if (c0 =? 240)%N then (144 <=? c1)%N else true)
          && (if (c0 =? 244)%N then (c1 <=? 143)%N else true)
          && utf8_valid r3
        end
      end
    end
  end.

Definition bytes_decode (bs : list byte) : Result string :=
  if utf8_valid bs then Ret (string_of_list_byte bs) else Raise UnicodeDecodeError.

(** *** str methods *)

(** The ASCII characters [str.isspace] accepts. *)
Definition is_space (b : byte) : bool :=
  let n := Byte.to_N b in
  (((9 <=? n) && (n <=? 13)) || ((28 <=? n) && (n <=? 32)))%N.

Fixpoint lstrip_bytes (bs : list byte) : list byte :=
  match bs with
  | [] => []
  | b :: r => if is_space b then lstrip_bytes r else bs
  end.

Definition strip_bytes (bs : list byte) : list byte :=
  rev (lstrip_bytes (rev (lstrip_bytes bs))).

(** [s.strip()] *)
Definition strip (s : string) : string :=
  string_of_list_byte (strip_bytes (list_byte_of_string s)).

Definition lower_byte (b : byte) : byte :=
  let n := Byte.to_N b in
  if ((65 <=? n) && (n <=? 90))%N
  then match Byte.of_N (n + 32) with Some b' => b' | None => b end
  else b.

(** [s.lower()] *)
Definition lower (s : string) : string :=
  string_of_list_byte (map lower_byte (list_byte_of_string s)).

(** [s.split(sep)] for a one-character separator. *)
Fixpoint split_char (sep : ascii) (s : string) : list string :=
  match s with
  | EmptyString => [""]
  | String c s' =>
    if Ascii.eqb c sep then "" :: split_char sep s'
    else match split_char sep s' with
         | [] => [String c ""]
         | h :: t => String c h :: t
         end
  end.

(** [s[:n]] *)
Definition prefix (n : nat) (s : string) : string := String.substring 0 n s.

(** [sep.join(l)] *)
Definition join (sep : string) (l : list string) : string := String.concat sep l.

(** [s.replace(a, b)] for single characters. *)
Fixpoint replace_char (a b : ascii) (s : string) : string :=
  match s with
  | EmptyString => EmptyString
  | String c s' => String (if Ascii.eqb c a then b else c) (replace_char a b s')
  end.

Fixpoint filter_chars (keep : ascii -> bool) (s : string) : string :=
  match s with
  | EmptyString => EmptyString
  | String c s' => if keep c then String c (filter_chars keep s') else filter_chars keep s'
  end.

(** [c.isalnum()] on ASCII. *)
Definition isalnum (c : ascii) : bool :=
  let n := N_of_ascii c in
  (((48 <=? n) && (n <=? 57)) || ((65 <=? n) && (n <=? 90))
   || ((97 <=? n) && (n <=? 122)))%N.

(** [s.rstrip()] *)
Definition rstrip (s : string) : string :=
  string_of_list_byte (rev (lstrip_bytes (rev (list_byte_of_string s)))).

(** Lower-case hexadecimal, as [bytes.hex()] and [str(uuid)] print it. *)
Definition hex_digit (n : N) : ascii :=
  if (n <? 10)%N then ascii_of_N (48 + n) else ascii_of_N (87 + n).

Fixpoint hex (bs : list byte) : string :=
  match bs with
  | [] => ""
  | b :: r =>
    let n := Byte.to_N b in
    String (hex_digit (n / 16)) (String (hex_digit (n mod 16)) (hex r))
  end.

(** *** pathlib *)

(** [Path(p).name]: the last component. *)
Definition path_name (p : string) : string := List.last (split_char "/" p) "".

Fixpoint rfind_from (c : ascii) (s : string) (i : nat) (found : option nat) : option nat :=
  match s with
  | EmptyString => found
  | String x s' => rfind_from c s' (S i) (if Ascii.eqb x c then Some i else found)
  end.

(** [Path(p).suffix]: from the last dot of the name on, unless that dot opens
    or closes the name. *)
Definition path_suffix (p : string) : string :=
  let name := path_name p in
  match rfind_from "." name 0%nat None with
  | Some i =>
    if (Nat.ltb 0 i && Nat.ltb i (String.length name - 1))%nat
    then String.substring i (String.length name - i) name
    else ""
  | None => ""
  end.

(** [Path(p).stem] *)
Definition path_stem (p : string) : string :=
  let name := path_name p in
  prefix (String.length name - String.length (path_suffix p)) name.

(** ** base64 (after CPython's [binascii])

    [b64encode] emits four characters per three octets and pads the tail with
    [=].  [b64decode] is the lenient decoder [base64.b64decode] uses by
    default: characters outside the alphabet are skipped, a complete pad
    sequence ends the input, leftover bits are an error. *)

Module base64.

Definition alphabet : list byte :=
  list_byte_of_string
    "ABCDEFGHIJKLMNOPQRSTUVWXYZabcdefghijklmnopqrstuvwxyz0123456789+/".

Definition pad : byte := "="%byte.

Definition byte_of_N (n : N) : byte :=
  match Byte.of_N (n mod 256) with Some b => b | None => "000"%byte end.

(** [table_b2a_base64] *)
Definition b2a (sextet : N) : byte := nth (N.to_nat sextet) alphabet pad.

Fixpoint index_of (c : byte) (l : list byte) (i : N) : option N :=
  match l with
  | [] => None
  | x :: l' => if Byte.eqb x c then Some i else index_of c l' (i + 1)%N
  end.

(** [table_a2b_base64] *)
Definition a2b (c : byte) : option N := index_of c alphabet 0%N.

Fixpoint b64encode (bs : list byte) : list byte :=
  match bs with
  | [] => []
  | [b0] =>
    let x0 := Byte.to_N b0 in
    [b2a (N.shiftr x0 2); b2a (N.shiftl (N.land x0 3) 4); pad; pad]
  | [b0; b1] =>
    let x0 := Byte.to_N b0 in
    let x1 := Byte.to_N b1 in
    [b2a (N.shiftr x0 2);
     b2a (N.lor (N.shiftl (N.land x0 3) 4) (N.shiftr x1 4));
     b2a (N.shiftl (N.land x1 15) 2); pad]
  | b0 :: b1 :: b2 :: r =>
    let x0 := Byte.to_N b0 in
    let x1 := Byte.to_N b1 in
    let x2 := Byte.to_N b2 in
    b2a (N.shiftr x0 2)
    :: b2a (N.lor (N.shiftl (N.land x0 3) 4) (N.shiftr x1 4))
    :: b2a (N.lor (N.shiftl (N.land x1 15) 2) (N.shiftr x2 6))
    :: b2a (N.land x2 63)
    :: b64encode r
  end.

(** The decoder loop: [quad_pos] counts the sextets of the current quad,
    [leftchar] holds the bits not yet written, [pads] the pad characters seen
    in a row.  [None] is [binascii.Error]. *)
Fixpoint a2b_base64 (quad_pos leftchar pads : N) (cs : list byte)
  : option (list byte) :=
  match cs with
  | [] => if (quad_pos =? 0)%N then Some [] else None
  | c :: cs' =>
    if Byte.eqb c pad then
      if ((2 <=? quad_pos) && (4 <=? quad_pos + (pads + 1)))%N then Some []
      else a2b_base64 quad_pos leftchar
             (if (2 <=? quad_pos)%N then (pads + 1)%N else pads) cs'
    else
      match a2b c with
      | None => a2b_base64 quad_pos leftchar pads cs'
      | Some v =>
        if (quad_pos =? 0)%N then a2b_base64 1 v 0 cs'
        else if (quad_pos =? 1)%N then
          cons (byte_of_N (N.lor (N.shiftl leftchar 2) (N.shiftr v 4)))
            <$> a2b_base64 2 (N.land v 15) 0 cs'
        else if (quad_pos =? 2)%N then
          cons (byte_of_N (N.lor (N.shiftl leftchar 4) (N.shiftr v 2)))
            <$> a2b_base64 3 (N.land v 3) 0 cs'
        else
          cons (byte_of_N (N.lor (N.shiftl leftchar 6) v))
            <$> a2b_base64 0 0 0 cs'
      end
  end.

Definition b64decode (cs : list byte) : Result (list byte) :=
  match a2b_base64 0 0 0 cs with
  | Some bs => Ret bs
  | None => Raise BinasciiError
  end.

End base64.

(** ** Third-party libraries as interfaces *)

(** [cryptography.fernet]: authenticated symmetric encryption.  [encrypt]
    takes the initialisation vector and the time it stamps into the token;
    [decrypt] answers [None] where the library raises [InvalidToken]. *)
Class FernetLib : Type := {
  cipher : Type;
  Fernet : list byte -> Result cipher;
  generate_key : list byte -> list byte;
  encrypt : cipher -> list byte -> Z -> list byte -> list byte;
  decrypt : cipher -> list byte -> option (list byte);
  Fernet_generate_key : forall r, exists c, Fernet (generate_key r) = Ret c;
  decrypt_encrypt : forall c iv t m, decrypt c (encrypt c iv t m) = Some m
}.

(** A dict whose values are strings and numbers, with distinct keys. *)
Definition is_scalar (v : pyvalue) : bool :=
  match v with
  | PyList _ | PyDict _ => false
  | _ => true
  end.

Definition flat_record (d : list (string * pyvalue)) : Prop :=
  NoDup (keys d) /\ Forall (fun kv => is_scalar (snd kv) = true) d.

(** [json]: [dumps] with the default [ensure_ascii=True]; [loads] answers
    [None] where the library raises [JSONDecodeError]. *)
Class JsonLib : Type := {
  dumps : pyvalue -> string;
  loads : string -> option pyvalue;
  dumps_ascii :
    forall v, Forall (fun b => (Byte.to_N b < 128)%N) (str_encode (dumps v));
  loads_dumps :
    forall d, flat_record d -> loads (dumps (PyDict d)) = Some (PyDict d)
}.

Definition lift {A} (r : Result A) : M A := fun w => (r, w).

(** [str(v)] as an f-string renders it; containers are abbreviated. *)
Definition format_value (v : pyvalue) : string :=
  match v with
  | PyNone => "None"
  | PyBool true => "True"
  | PyBool false => "False"
  | PyNum z => str_of_Z z
  | PyFloat t => str_of_Z (t / 1000000) +:+ "." +:+ str_of_Z (t mod 1000000)
  | PyStr s => s
  | PyList _ => "[...]"
  | PyDict _ => "{...}"
  end.

(** [v[k]] for a string subscript. *)
Definition getitem (v : pyvalue) (k : string) : Result pyvalue :=
  match v with
  | PyDict d => match assoc k d with
                | Some x => Ret x
                | None => Raise (KeyError k)
                end
  | PyStr _ => Raise (TypeError "string indices must be integers")
  | PyList _ => Raise (TypeError "list indices must be integers or slices, not str")
  | _ => Raise (TypeError "object is not subscriptable")
  end.

(** * Suites/Linkdin/chatgpt_login.py *)

Module chatgpt_login.
Section WithLibraries.
Context {fernet : FernetLib} {json : JsonLib}.

(** [Fernet.encrypt]: draws the IV and reads the clock. *)
Definition fernet_encrypt (c : cipher) (data : list byte) : M (list byte) :=
  iv <- draw_random ;;
  t <- now_time ;;
  ret (encrypt c iv t data).

Definition fernet_decrypt (c : cipher) (token : list byte) : M (list byte) :=
  match decrypt c token with
  | Some data => ret data
  | None => raise InvalidToken
  end.

Definition json_loads (text : string) : M pyvalue :=
  match loads text with
  | Some v => ret v
  | None => raise JSONDecodeError
  end.

Record SecureCredentialManager : Type := {
  key_file : string;
  credentials_file : string;
  key : list byte;
  cipher_suite : cipher
}.

Definition _load_or_generate_key (key_file : string) : M (list byte) :=
  let generate : M (list byte) :=
    r <- draw_random ;;
    let key := generate_key r in
    try_except
      (write_file key_file (string_of_list_byte key) ;;;
       print ("✅ Generated new encryption key: " +:+ key_file))
      (fun e => print ("Warning: Could not save key file: " +:+ str_exn e)) ;;;
    ret key in
  ex <- path_exists key_file ;;
  if ex then
    try_except
      (c <- read_file key_file ;; ret (list_byte_of_string c))
      (fun e =>
         print ("Warning: Could not load existing key: " +:+ str_exn e) ;;;
         generate)
  else generate.

Definition __init__ (key_file : string) : M SecureCredentialManager :=
  key <- _load_or_generate_key key_file ;;
  c <- lift (Fernet key) ;;
  ret {| key_file := key_file; credentials_file := ".chatgpt_credentials";
         key := key; cipher_suite := c |}.

Definition _encrypt_credentials (self : SecureCredentialManager)
    (credentials : pyvalue) : M string :=
  let json_data := dumps credentials in
  encrypted_data <- fernet_encrypt (cipher_suite self) (str_encode json_data) ;;
  lift (bytes_decode (base64.b64encode encrypted_data)).

Definition _decrypt_credentials (self : SecureCredentialManager)
    (encrypted_data : string) : M pyvalue :=
  encrypted_bytes <- lift (base64.b64decode (str_encode encrypted_data)) ;;
  decrypted_data <- fernet_decrypt (cipher_suite self) encrypted_bytes ;;
  text <- lift (bytes_decode decrypted_data) ;;
  json_loads text.

Definition save_credentials (self : SecureCredentialManager)
    (email password : string) : M bool :=
  try_except
    (t <- now_time ;;
     let credentials :=
       PyDict [("email", PyStr email); ("password", PyStr password);
               ("timestamp", PyFloat t)] in
     encrypted_credentials <- _encrypt_credentials self credentials ;;
     write_file (credentials_file self) encrypted_credentials ;;;
     print ("✅ Credentials saved securely to " +:+ credentials_file self) ;;;
     ret true)
    (fun e =>
       print ("❌ Failed to save credentials: " +:+ str_exn e) ;;;
       ret false).

Definition load_credentials (self : SecureCredentialManager)
  : M (option pyvalue) :=
  ex <- path_exists (credentials_file self) ;;
  if negb ex then ret None
  else
    try_except
      (content <- read_file (credentials_file self) ;;
       let encrypted_data := strip content in
       credentials <- _decrypt_credentials self encrypted_data ;;
       email <- lift (getitem credentials "email") ;;
       print ("✅ Loaded credentials for: " +:+ format_value email) ;;;
       ret (Some credentials))
      (fun e =>
         print ("❌ Failed to load credentials: " +:+ str_exn e) ;;;
         ret None).

Definition clear_credentials (self : SecureCredentialManager) : M bool :=
  try_except
    (ex <- path_exists (credentials_file self) ;;
     (if ex then
        unlink (credentials_file self) ;;;
        print "✅ Credentials cleared"
      else ret tt) ;;;
     ret true)
    (fun e =>
       print ("❌ Failed to clear credentials: " +:+ str_exn e) ;;;
       ret false).

Record ChatGPTLogin : Type := {
  credential_manager : SecureCredentialManager
}.

(** Truthiness of an [os.getenv] result: unset and empty are both false. *)
Definition env_set (v : option string) : bool :=
  match v with
  | Some s => negb (String.eqb s "")
  | None => false
  end.

Definition env_value (v : option string) : pyvalue :=
  match v with
  | Some s => PyStr s
  | None => PyNone
  end.

Definition get_credentials (self : ChatGPTLogin) : M (pyvalue * pyvalue) :=
  let from_user_input : M (pyvalue * pyvalue) :=
    print "🔐 Please enter your ChatGPT credentials:" ;;;
    email <- input "Email: " ;;
    let email := strip email in
    password <- input "Password: " ;;
    let password := strip password in
    save_choice <- input "Save credentials securely? (y/N): " ;;
    let save_choice := lower (strip save_choice) in
    (if String.eqb save_choice "y" || String.eqb save_choice "yes" then
       save_credentials (credential_manager self) email password ;;; ret tt
     else ret tt) ;;;
    ret (PyStr email, PyStr password) in
  email <- getenv "CHATGPT_EMAIL" ;;
  password <- getenv "CHATGPT_PASSWORD" ;;
  if env_set email && env_set password then
    print "✅ Using credentials from environment variables" ;;;
    ret (env_value email, env_value password)
  else
    credentials <- load_credentials (credential_manager self) ;;
    match credentials with
    | Some c =>
      if truthy c then
        print "✅ Using credentials from secure storage" ;;;
        e <- lift (getitem c "email") ;;
        p <- lift (getitem c "password") ;;
        ret (e, p)
      else from_user_input
    | None => from_user_input
    end.

(** *** The store, in the specification's words *)

(** The credential record: email, password and the time of saving. *)
Definition credential_record (email password : string) (t : Z) : pyvalue :=
  PyDict [("email", PyStr email); ("password", PyStr password);
          ("timestamp", PyFloat t)].

(** The credential blob: the base64 encoding of the Fernet encryption of the
    JSON serialization of the record. *)
Definition credential_blob (c : cipher) (iv : list byte) (t : Z)
    (record : pyvalue) : string :=
  string_of_list_byte
    (base64.b64encode (encrypt c iv t (str_encode (dumps record)))).

(** Opening a blob: base64-decode, decrypt, JSON-parse. *)
Definition open_blob (c : cipher) (blob : string) : Result pyvalue :=
  match base64.b64decode (str_encode blob) with
  | Raise e => Raise e
  | Ret token =>
    match decrypt c token with
    | None => Raise InvalidToken
    | Some plaintext =>
      match bytes_decode plaintext with
      | Raise e => Raise e
      | Ret text =>
        match loads text with
        | None => Raise JSONDecodeError
        | Some v => Ret v
        end
      end
    end
  end.

(** What [load_credentials] hands out for a stored blob: the opened record,
    provided it has an email. *)
Definition load_outcome (c : cipher) (content : string) : option pyvalue :=
  match open_blob c (strip content) with
  | Ret v => match getitem v "email" with
             | Ret _ => Some v
             | Raise _ => None
             end
  | Raise _ => None
  end.

End WithLibraries.
End chatgpt_login.

(** * Suites/Youtube: the pipeline stages *)

(** Module globals fixed when the stage modules are imported: the API keys
    read from the environment (empty when unset) and whether the client
    libraries could be imported. *)
Record Config : Type := {
  OPENAI_API_KEY : string;
  ELEVENLABS_API_KEY : string;
  PIKA_API_KEY : string;
  openai_installed : bool;
  elevenlabs_installed : bool
}.

(** [Path(__file__).parent.parent / "output"] *)
Definition output_dir : string := "output".

Definition path_join (dir name : string) : string := dir +:+ "/" +:+ name.

(** [Path.mkdir(exist_ok=True)]: a file-system call; directories themselves
    are not part of [files]. *)
Definition mkdir (p : string) : M unit := io_gate.

(** *** Calls to the remote services

    Each call takes the next scripted outcome of its service; a service with
    nothing left to say is unreachable. *)

Definition take_reply {A} (get : Remote -> list (exn + A))
    (set : list (exn + A) -> Remote -> Remote) : M A :=
  fun w =>
    match get (remote w) with
    | [] => (Raise (ConnectionError "Connection refused"), w)
    | inl e :: rs => (Raise e, set_remote (set rs (remote w)) w)
    | inr a :: rs => (Ret a, set_remote (set rs (remote w)) w)
    end.

Definition set_openai_replies (r : list (exn + string)) (x : Remote) : Remote :=
  {| openai_replies := r; elevenlabs_replies := elevenlabs_replies x;
     runway_replies := runway_replies x; http_replies := http_replies x |}.

Definition set_elevenlabs_replies (r : list (exn + list (list byte)))
    (x : Remote) : Remote :=
  {| openai_replies := openai_replies x; elevenlabs_replies := r;
     runway_replies := runway_replies x; http_replies := http_replies x |}.

Definition set_runway_replies (r : list (exn + list string)) (x : Remote) : Remote :=
  {| openai_replies := openai_replies x;
     elevenlabs_replies := elevenlabs_replies x;
     runway_replies := r; http_replies := http_replies x |}.

Definition set_http_replies (r : list (exn + Response)) (x : Remote) : Remote :=
  {| openai_replies := openai_replies x;
     elevenlabs_replies := elevenlabs_replies x;
     runway_replies := runway_replies x; http_replies := r |}.

(** [openai.ChatCompletion.create(...)].choices[0].message.content *)
Definition openai_chat_completion (prompt : string) : M string :=
  log (EvCall "openai.ChatCompletion.create" [PyStr prompt]) ;;;
  take_reply openai_replies set_openai_replies.

(** [elevenlabs.generate(text=, voice=, model=)]: the audio, in chunks. *)
Definition elevenlabs_generate (text voice : string) : M (list (list byte)) :=
  log (EvCall "elevenlabs.generate" [PyStr text; PyStr voice]) ;;;
  take_reply elevenlabs_replies set_elevenlabs_replies.

(** [client.image_to_video.create(...)] *)
Definition runway_create (prompt_text : pyvalue) : M unit :=
  log (EvCall "runway.image_to_video.create" [prompt_text]) ;;;
  take_reply runway_replies set_runway_replies ;;;
  ret tt.

(** [task.wait_for_task_output().output] *)
Definition runway_wait_for_task_output : M (list string) :=
  log (EvCall "runway.wait_for_task_output" []) ;;;
  take_reply runway_replies set_runway_replies.

Definition requests_post (url : string) : M Response :=
  log (EvPost url) ;;;
  take_reply http_replies set_http_replies.

Definition requests_get (url : string) : M Response :=
  log (EvGet url) ;;;
  take_reply http_replies set_http_replies.

(** [response.json()] *)
Definition response_json (r : Response) : M pyvalue :=
  match resp_json r with
  | Some v => ret v
  | None => raise JSONDecodeError
  end.

(** [k in v] for a string [k]. *)
Definition contains (k : string) (v : pyvalue) : Result bool :=
  match v with
  | PyDict d => Ret (bool_decide (is_Some (assoc k d)))
  | PyList l =>
    Ret (existsb (fun x => match x with PyStr s => String.eqb s k | _ => false end) l)
  | PyStr s => Ret (bool_decide (is_Some (String.index 0 k s)))
  | _ => Raise (TypeError "argument is not iterable")
  end.

(** [v.get(k)] *)
Definition dict_get (v : pyvalue) (k : string) : Result pyvalue :=
  match v with
  | PyDict d => Ret (default PyNone (assoc k d))
  | _ => Raise (AttributeError "object has no attribute 'get'")
  end.

(** [v == s] for a string [s]. *)
Definition eq_str (v : pyvalue) (s : string) : bool :=
  match v with
  | PyStr x => String.eqb x s
  | _ => false
  end.

(** [while cond: body], with [break].  The body answers the next state and
    whether it broke out.  [fuel] bounds the number of iterations the model
    follows; [None] means it was used up before the loop ended. *)
Fixpoint while_loop {S : Type} (fuel : nat) (cond : S -> bool)
    (body : S -> M (S * bool)) (s : S) : M (option S) :=
  match fuel with
  | O => ret None
  | Datatypes.S fuel' =>
    if cond s then
      r <- body s ;;
      if snd r then ret (Some (fst r))
      else while_loop fuel' cond body (fst r)
    else ret (Some s)
  end.

Module script_gen.
Section WithConfig.
Variable cfg : Config.

Definition length_params (length : string) : string * string :=
  if String.eqb length "short" then ("2-3 minutes", "150-250")
  else if String.eqb length "long" then ("10-15 minutes", "800-1200")
  else ("5-7 minutes", "400-600").

Definition style_params (style : string) : string :=
  if String.eqb style "entertaining"
  then "entertaining, engaging, humorous, captivating storytelling"
  else if String.eqb style "professional"
  then "professional, formal, business-like, authoritative tone"
  else if String.eqb style "casual"
  then "casual, conversational, friendly, relaxed tone"
  else "educational, informative, clear explanations, step-by-step approach".

Definition nl : string := String (ascii_of_nat 10) EmptyString.

Definition make_prompt (topic length style : string) : string :=
  let length_info := length_params length in
  let style_info := style_params style in
  "Write a " +:+ fst length_info +:+ " script for a YouTube video." +:+ nl +:+ nl
  +:+ "Topic: " +:+ topic +:+ nl
  +:+ "Style: " +:+ style_info +:+ nl
  +:+ "Target word count: " +:+ snd length_info +:+ " words" +:+ nl +:+ nl
  +:+ "Structure the script with:" +:+ nl
  +:+ "1. Hook (10-15% of content) - Grab attention immediately" +:+ nl
  +:+ "2. Introduction (15-20% of content) - Set context and expectations" +:+ nl
  +:+ "3. Main Content (60-70% of content) - Core information/entertainment" +:+ nl
  +:+ "4. Conclusion (10-15% of content) - Wrap up and call to action" +:+ nl +:+ nl
  +:+ "Make it engaging, well-paced, and suitable for " +:+ style +:+ " content." +:+ nl
  +:+ "Include natural speech patterns and transitions." +:+ nl
  +:+ "Avoid jargon unless necessary for the topic." +:+ nl +:+ nl
  +:+ "Format the output as a clean script with clear sections.".

Definition safe_char (c : ascii) : bool :=
  isalnum c || Ascii.eqb c " " || Ascii.eqb c "-" || Ascii.eqb c "_".

Fixpoint repeat_string (s : string) (n : nat) : string :=
  match n with
  | O => ""
  | Datatypes.S n' => s +:+ repeat_string s n'
  end.

Definition generate_script (topic length style : string) : M string :=
  if String.eqb (OPENAI_API_KEY cfg) "" then
    raise (ValueError "OpenAI API key not found. Please set OPENAI_API_KEY in config.py or environment variables.")
  else if negb (openai_installed cfg) then
    raise (ImportError "OpenAI library not installed. Please install it with: pip install openai")
  else
    let length_info := length_params length in
    let prompt := make_prompt topic length style in
    try_except
      (content <- openai_chat_completion prompt ;;
       let script_content := strip content in
       timestamp <- now_strftime "%Y%m%d_%H%M%S" ;;
       let safe_topic := rstrip (filter_chars safe_char topic) in
       let safe_topic := prefix 30 (replace_char " " "_" safe_topic) in
       let filename :=
         "script_" +:+ safe_topic +:+ "_" +:+ length +:+ "_" +:+ timestamp +:+ ".txt" in
       mkdir output_dir ;;;
       let script_path := path_join output_dir filename in
       generated <- now_strftime "%Y-%m-%d %H:%M:%S" ;;
       write_file script_path
         ("# Script: " +:+ topic +:+ nl
          +:+ "# Generated: " +:+ generated +:+ nl
          +:+ "# Length: " +:+ fst length_info +:+ nl
          +:+ "# Style: " +:+ style +:+ nl
          +:+ repeat_string "=" 50 +:+ nl +:+ nl
          +:+ script_content) ;;;
       print ("[SCRIPT] Generated script saved to: " +:+ script_path) ;;;
       ret script_path)
      (fun e => raise (Exception ("Failed to generate script: " +:+ str_exn e))).

Definition run (theme : string) : M string :=
  generate_script theme "medium" "entertaining".

End WithConfig.
End script_gen.

Module voice_gen.
Section WithConfig.
Variable cfg : Config.

(** All three voice names map to the same voice id. *)
Definition voice_ids (voice_type : string) : string := "21m00Tcm4TlvDq8ikWAM".

Definition generate_voice (text voice_type speed : string) : M string :=
  if String.eqb (ELEVENLABS_API_KEY cfg) "" then
    raise (ValueError "ElevenLabs API key not found. Please set ELEVENLABS_API_KEY in config.py or environment variables.")
  else if negb (elevenlabs_installed cfg) then
    raise (ImportError "ElevenLabs library not installed. Please install it with: pip install elevenlabs")
  else
    let voice_id := voice_ids voice_type in
    try_except
      (audio <- elevenlabs_generate text voice_id ;;
       timestamp <- now_strftime "%Y%m%d_%H%M%S" ;;
       let safe_text := rstrip (filter_chars script_gen.safe_char (prefix 30 text)) in
       let safe_text := prefix 20 (replace_char " " "_" safe_text) in
       let filename :=
         "voice_" +:+ safe_text +:+ "_" +:+ voice_type +:+ "_" +:+ timestamp +:+ ".mp3" in
       mkdir output_dir ;;;
       let audio_path := path_join output_dir filename in
       write_file audio_path (string_of_list_byte (concat audio)) ;;;
       print ("[VOICE] Generated voice saved to: " +:+ audio_path) ;;;
       ret audio_path)
      (fun e => raise (Exception ("Failed to generate voice: " +:+ str_exn e))).

Definition generate_voice_from_file (script_file : string) : M string :=
  ex <- path_exists script_file ;;
  if negb ex then
    raise (FileNotFoundError ("Script file not found: " +:+ script_file))
  else
    script_text <-
      try_except (read_file script_file)
        (fun e => raise (Exception ("Failed to read script file: " +:+ str_exn e))) ;;
    generate_voice script_text "female" "normal".

Definition run (script_file : string) : M string :=
  generate_voice_from_file script_file.

End WithConfig.
End voice_gen.

Module animation_gen.

(** [try: c  except TaskFailedError as e: h] catches that class only. *)
Definition try_except_TaskFailedError {A} (c : M A) (h : string -> M A) : M A :=
  fun w => match c w with
           | (Raise (TaskFailedError d), w') => h d w'
           | r => r
           end.

Definition run (prompt_text : pyvalue) : M pyvalue :=
  api_key <- getenv "RUNWAYML_API_SECRET" ;;
  (if api_key is Some _ then ret tt
   else raise (Exception "The api_key client option must be set")) ;;;
  runway_create prompt_text ;;;
  try_except_TaskFailedError
    (output <- runway_wait_for_task_output ;;
     match output with
     | [] => raise (IndexError "list index out of range")
     | first :: _ =>
       print ("Video ready: " +:+ first) ;;;
       ret (PyStr first)
     end)
    (fun task_details =>
       print ("Generation failed: " +:+ task_details) ;;;
       ret PyNone).

End animation_gen.

Module video_edit.
Section WithConfig.
Variable cfg : Config.

Definition style_prompts (style : string) : string :=
  if String.eqb style "minimal"
  then "minimalist, simple, clean, uncluttered, elegant"
  else if String.eqb style "dynamic"
  then "dynamic, energetic, vibrant, fast-paced, engaging"
  else if String.eqb style "elegant"
  then "elegant, sophisticated, refined, polished, high-quality"
  else "modern, sleek, contemporary design, clean lines, professional".

Definition resolution_params (resolution : string) : Z * Z :=
  if String.eqb resolution "720p" then (1280, 720)
  else if String.eqb resolution "4k" then (3840, 2160)
  else (1920, 1080).

Definition max_attempts : Z := 60.

(** The state of the poll loop. *)
Record poll_state : Type := {
  attempts : Z;
  video_url : pyvalue
}.

(** One turn of [while attempts < max_attempts]. *)
Definition poll_body (status_url : string) (s : poll_state)
  : M (poll_state * bool) :=
  status_resp <- requests_get status_url ;;
  if negb (resp_ok status_resp) then
    raise (Exception ("Failed to check video status: " +:+ resp_text status_resp))
  else
    status_data <- response_json status_resp ;;
    status <- lift (dict_get status_data "status") ;;
    if eq_str status "completed" then
      url <- lift (dict_get status_data "video") ;;
      if truthy url then
        print "✅ Video ready!" ;;;
        ret ({| attempts := attempts s; video_url := url |}, true)
      else raise (Exception "Video completed but no URL provided")
    else if eq_str status "failed" then
      raise (Exception "Video generation failed")
    else
      sleep 5 ;;;
      ret ({| attempts := attempts s + 1; video_url := video_url s |}, false).

Definition poll_cond (s : poll_state) : bool := attempts s <? max_attempts.

Definition poll (fuel : nat) (status_url : string) : M (option poll_state) :=
  while_loop fuel poll_cond (poll_body status_url)
    {| attempts := 0; video_url := PyNone |}.

(** [create_video], following the poll loop for at most [fuel] turns;
    [None] when that was not enough to reach the end of the function. *)
Definition create_video_fuel (fuel : nat) (script_path style resolution : string)
  : M (option string) :=
  if String.eqb (PIKA_API_KEY cfg) "" then
    raise (ValueError "Pika Labs API key not found. Please set PIKA_API_KEY in config.py or environment variables.")
  else
    ex <- path_exists script_path ;;
    if negb ex then
      raise (FileNotFoundError ("Script file not found: " +:+ script_path))
    else
      script_content <-
        try_except (read_file script_path)
          (fun e => raise (Exception ("Failed to read script file: " +:+ str_exn e))) ;;
      let style_prompt := style_prompts style in
      let res_params := resolution_params resolution in
      let script_lines := firstn 5 (split_char (ascii_of_nat 10) script_content) in
      let script_summary := strip (join " " script_lines) in
      let animation_prompt :=
        "A " +:+ style_prompt +:+ " animated video about: "
        +:+ prefix 200 script_summary
        +:+ "... Colorful, vibrant, engaging visuals that match the content." in
      try_except
        (let create_url := "https://api.pika.art/v1/video.create" in
         print "🎬 Sending request to Pika Labs..." ;;;
         response <- requests_post create_url ;;
         if negb (resp_ok response) then
           raise (Exception ("Failed to create video job: " +:+ resp_text response))
         else
           data <- response_json response ;;
           has_id <- lift (contains "id" data) ;;
           if negb has_id then
             raise (Exception ("Invalid response from Pika Labs: " +:+ format_value data))
           else
             video_id <- lift (getitem data "id") ;;
             print ("✅ Video job created with ID: " +:+ format_value video_id) ;;;
             let status_url :=
               "https://api.pika.art/v1/video.get?id=" +:+ format_value video_id in
             print "⏳ Waiting for Pika Labs to finish rendering..." ;;;
             polled <- poll fuel status_url ;;
             match polled with
             | None => ret None
             | Some s =>
               if negb (truthy (video_url s)) then
                 raise (Exception "Video generation timed out")
               else
                 print "⬇ Downloading video..." ;;;
                 video_resp <- requests_get (format_value (video_url s)) ;;
                 if negb (resp_ok video_resp) then
                   raise (Exception ("Failed to download video: "
                                     +:+ str_of_Z (resp_status_code video_resp)))
                 else
                   timestamp <- now_strftime "%Y%m%d_%H%M%S" ;;
                   let script_name := path_stem script_path in
                   let filename :=
                     "video_" +:+ script_name +:+ "_" +:+ style +:+ "_"
                     +:+ resolution +:+ "_" +:+ timestamp +:+ ".mp4" in
                   mkdir output_dir ;;;
                   let video_path := path_join output_dir filename in
                   write_file video_path
                     (string_of_list_byte (resp_content video_resp)) ;;;
                   print ("🎉 Video saved as " +:+ video_path) ;;;
                   ret (Some video_path)
             end)
        (fun e => raise (Exception ("Failed to create video: " +:+ str_exn e))).

(** The status requests among the events. *)
Fixpoint count_gets (t : list event) : nat :=
  match t with
  | [] => O
  | EvGet _ :: t' => Datatypes.S (count_gets t')
  | _ :: t' => count_gets t'
  end.

(** Total time slept, in seconds. *)
Fixpoint slept (t : list event) : Z :=
  match t with
  | [] => 0
  | EvSleep n :: t' => n + slept t'
  | _ :: t' => slept t'
  end.

(** A status reply that says the job is neither completed nor failed. *)
Definition is_pending (r : Response) : bool :=
  resp_ok r
  && match resp_json r with
     | Some (PyDict d) =>
       negb (eq_str (default PyNone (assoc "status" d)) "completed")
       && negb (eq_str (default PyNone (assoc "status" d)) "failed")
     | _ => false
     end.

(** A reply to the job creation that carries a job id. *)
Definition has_job_id (r : Response) : bool :=
  resp_ok r
  && match resp_json r with
     | Some (PyDict d) => bool_decide (is_Some (assoc "id" d))
     | _ => false
     end.

(** Enough turns for any run: the loop never takes more than [max_attempts]. *)
Definition enough_fuel : nat := 61.

Definition create_video (script_path style resolution : string) : M string :=
  r <- create_video_fuel enough_fuel script_path style resolution ;;
  match r with
  | Some p => ret p
  | None => raise (Exception "the poll loop did not end")
  end.

(** [run(script_file=None, style="modern", resolution="1080p")] *)
Definition run (script_file : option string) (style resolution : string)
  : M string :=
  script_file <-
    match script_file with
    | Some f => ret f
    | None =>
      let f := path_join output_dir "default_script.txt" in
      ex <- path_exists f ;;
      (if negb ex then
         mkdir output_dir ;;;
         write_file f "This is a default script for video generation."
       else ret tt) ;;;
      ret f
    end ;;
  create_video script_file style resolution.

End WithConfig.
End video_edit.

(** * pipeline.py *)

Module pipeline.



(** A stage observed from outside: the call is recorded with its arguments,
    then the stage answers as [behaviour] says. *)
Definition traced (name : string) (behaviour : list pyvalue -> Result pyvalue)
    (args : list pyvalue) : M pyvalue :=
  log (EvCall name args) ;;;
  lift (behaviour args).





End pipeline.

(** * api_server.py *)

Module api_server.
Section WithConfig.
Variable cfg : Config.

Record ScriptRequest : Type := {
  topic : string;
  length : string;
  style : option string
}.

Record VoiceRequest : Type := {
  text : string;
  voice_type : string;
  speed : string
}.

Record UploadFile : Type := {
  filename : string;
  file : list byte
}.

Record APIResponse : Type := {
  status : string;
  message : string;
  data : option (list (string * pyvalue))
}.

Definition OUTPUT_DIR : string := output_dir.
Definition FRONTEND_DIR : string := "frontend".

(** [str(uuid.uuid4())[:8]]: the first four random octets, in hex. *)
Definition uuid4_prefix : M string :=
  r <- draw_random ;;
  ret (hex (firstn 4 (r ++ repeat "000"%byte 4))).

Definition generate_unique_filename (pre extension : string) : M string :=
  timestamp <- now_strftime "%Y%m%d_%H%M%S" ;;
  unique_id <- uuid4_prefix ;;
  ret (pre +:+ "_" +:+ timestamp +:+ "_" +:+ unique_id +:+ "." +:+ extension).

Definition save_uploaded_file (upload_file : UploadFile) (directory : string)
  : M string :=
  name <- generate_unique_filename "upload"
            (List.last (split_char "." (filename upload_file)) "") ;;
  let file_path := path_join directory name in
  write_file file_path (string_of_list_byte (file upload_file)) ;;;
  ret file_path.

(** [f"{num / den:.1f}"] for a non-negative [num] and a power of two [den]:
    the quotient is exact, and rounds half to even. *)
Definition format_tenths (num den : Z) : string :=
  let q := (10 * num) / den in
  let r := (10 * num) mod den in
  let rounded :=
    if den <? 2 * r then q + 1
    else if (2 * r =? den) && Z.odd q then q + 1
    else q in
  str_of_Z (rounded / 10) +:+ "." +:+ str_of_Z (rounded mod 10).

Definition allowed_extensions : list string := [".txt"; ".md"].

Definition file_size (p : string) : M Z :=
  fun w => (Ret (match files w !! p with
                 | Some c => Z.of_nat (String.length c)
                 | None => 0
                 end), w).

Definition index : M string := ret (path_join FRONTEND_DIR "index.html").

Definition health_check : M (list (string * pyvalue)) :=
  ts <- now_isoformat ;;
  ret [("status", PyStr "healthy"); ("timestamp", PyStr ts)].

Definition generate_script_endpoint (request : ScriptRequest) : M APIResponse :=
  try_except
    (if String.eqb (strip (topic request)) "" then
       raise (HTTPException 400 "Topic cannot be empty")
     else
       script_path <- script_gen.generate_script cfg (topic request)
                        (length request) (default "None" (style request)) ;;
       let relative_path := "/output/" +:+ path_name script_path in
       script_content <-
         try_except (read_file script_path)
           (fun e => ret ("Script generated but content could not be read: "
                          +:+ str_exn e)) ;;
       ret {| status := "success";
              message := "Script generated successfully";
              data := Some [("script_path", PyStr relative_path);
                            ("script_content", PyStr script_content);
                            ("filename", PyStr (path_name script_path))] |})
    (fun e => raise (HTTPException 500 ("Failed to generate script: " +:+ str_exn e))).

Definition generate_voice_endpoint (request : VoiceRequest) : M APIResponse :=
  try_except
    (if String.eqb (strip (text request)) "" then
       raise (HTTPException 400 "Text cannot be empty")
     else if (5000 <? Z.of_nat (String.length (text request))) then
       raise (HTTPException 400 "Text too long (max 5000 characters)")
     else
       voice_path <- voice_gen.generate_voice cfg (text request)
                       (voice_type request) (speed request) ;;
       let relative_path := "/output/" +:+ path_name voice_path in
       ret {| status := "success";
              message := "Voice generated successfully";
              data := Some [("voice_path", PyStr relative_path);
                            ("filename", PyStr (path_name voice_path));
                            ("duration", PyStr "Unknown")] |})
    (fun e => raise (HTTPException 500 ("Failed to generate voice: " +:+ str_exn e))).

Definition extension_allowed (name : string) : bool :=
  existsb (String.eqb (lower (path_suffix name))) allowed_extensions.

Definition invalid_file_type : string :=
  "Invalid file type. Allowed: " +:+ join ", " allowed_extensions.

Definition create_video_endpoint (script_file : UploadFile)
    (style resolution : string) : M APIResponse :=
  try_except
    (if String.eqb (filename script_file) "" then
       raise (HTTPException 400 "No file provided")
     else if negb (extension_allowed (filename script_file)) then
       raise (HTTPException 400 invalid_file_type)
     else
       script_path <- save_uploaded_file script_file OUTPUT_DIR ;;
       video_path <- video_edit.create_video cfg script_path style resolution ;;
       let relative_path := "/output/" +:+ path_name video_path in
       size <- file_size video_path ;;
       ret {| status := "success";
              message := "Video created successfully";
              data := Some [("video_path", PyStr relative_path);
                            ("filename", PyStr (path_name video_path));
                            ("size", PyStr (format_tenths size (1024 * 1024) +:+ " MB"));
                            ("duration", PyStr "Unknown")] |})
    (fun e => raise (HTTPException 500 ("Failed to create video: " +:+ str_exn e))).

Definition upload_script_endpoint (script_file : UploadFile) : M APIResponse :=
  try_except
    (if String.eqb (filename script_file) "" then
       raise (HTTPException 400 "No file provided")
     else if negb (extension_allowed (filename script_file)) then
       raise (HTTPException 400 invalid_file_type)
     else
       script_path <- save_uploaded_file script_file OUTPUT_DIR ;;
       ret {| status := "success";
              message := "Script uploaded successfully";
              data := Some [("script_path", PyStr ("/output/" +:+ path_name script_path));
                            ("filename", PyStr (path_name script_path))] |})
    (fun e => raise (HTTPException 500 ("Failed to upload script: " +:+ str_exn e))).

(** [OUTPUT_DIR.iterdir()]: the files directly under the output directory. *)
Definition iterdir (dir : string) : M (list (string * string)) :=
  io_gate ;;;
  fun w =>
    (Ret (filter (fun kv => bool_decide (kv.1 = path_join dir (path_name kv.1)))
            (map_to_list (files w))), w).

Definition file_entry (clk : Clock) (kv : string * string) : pyvalue :=
  let suffix := path_suffix kv.1 in
  PyDict [("name", PyStr (path_name kv.1));
          ("size", PyStr (format_tenths (Z.of_nat (String.length kv.2)) 1024 +:+ " KB"));
          ("modified", PyStr (mtime_iso clk kv.1));
          ("type", PyStr (if String.eqb suffix "" then "unknown"
                          else String.substring 1 (String.length suffix - 1) suffix))].

Definition list_outputs : M APIResponse :=
  try_except
    (entries <- iterdir OUTPUT_DIR ;;
     files <- (fun w => (Ret (map (file_entry (clock w)) entries), w)) ;;
     ret {| status := "success";
            message := "Found " +:+ str_of_Z (Z.of_nat (List.length files)) +:+ " files";
            data := Some [("files", PyList files)] |})
    (fun e => raise (HTTPException 500 ("Failed to list outputs: " +:+ str_exn e))).

(** [(OUTPUT_DIR / filename).resolve().is_relative_to(OUTPUT_DIR.resolve())]
    for a one-component [filename]: only [..] leaves the directory. *)
Definition stays_inside (filename : string) : bool :=
  negb (String.eqb filename "..").

Definition delete_file (filename : string) : M APIResponse :=
  try_except
    (let file_path := path_join OUTPUT_DIR filename in
     if negb (stays_inside filename) then
       raise (HTTPException 400 "Invalid file path")
     else
       ex <- path_exists file_path ;;
       if negb ex then raise (HTTPException 404 "File not found")
       else
         unlink file_path ;;;
         ret {| status := "success";
                message := "File " +:+ filename +:+ " deleted successfully";
                data := None |})
    (fun e => raise (HTTPException 500 ("Failed to delete file: " +:+ str_exn e))).

(** *** What goes over the wire *)

Inductive HttpResponse : Type :=
| JSONResponse (status_code : Z) (content : list (string * pyvalue))
| FileResponse (path : string).

(** FastAPI's rendering of a returned [APIResponse]: all three fields, with
    [null] for absent data. *)
Definition render (r : APIResponse) : HttpResponse :=
  JSONResponse 200
    [("status", PyStr (status r)); ("message", PyStr (message r));
     ("data", match data r with Some d => PyDict d | None => PyNone end)].

(** The body [http_exception_handler] builds. *)
Definition error_content (detail timestamp : string) : list (string * pyvalue) :=
  [("status", PyStr "error"); ("message", PyStr detail);
   ("timestamp", PyStr timestamp)].

Definition http_exception_handler (status_code : Z) (detail : string)
  : M HttpResponse :=
  ts <- now_isoformat ;;
  ret (JSONResponse status_code (error_content detail ts)).

Definition general_exception_handler (exc : exn) : M HttpResponse :=
  ts <- now_isoformat ;;
  ret (JSONResponse 500
         [("status", PyStr "error"); ("message", PyStr "Internal server error");
          ("detail", PyStr (str_exn exc)); ("timestamp", PyStr ts)]).

(** The application around an endpoint: a returned value is rendered, a
    raised [HTTPException] goes to its handler, anything else to the general
    one. *)
Definition serve {A} (endpoint : M A) (rend : A -> HttpResponse) : M HttpResponse :=
  fun w =>
    match endpoint w with
    | (Ret a, w') => (Ret (rend a), w')
    | (Raise (HTTPException sc d), w') => http_exception_handler sc d w'
    | (Raise e, w') => general_exception_handler e w'
    end.

Inductive Request : Type :=
| GET_index
| GET_health
| POST_generate_script (request : ScriptRequest)
| POST_generate_voice (request : VoiceRequest)
| POST_create_video (script_file : UploadFile) (style resolution : string)
| POST_upload_script (script_file : UploadFile)
| GET_list_outputs
| DELETE_delete_file (filename : string).

Definition app (req : Request) : M HttpResponse :=
  match req with
  | GET_index => serve index FileResponse
  | GET_health => serve health_check (JSONResponse 200)
  | POST_generate_script r => serve (generate_script_endpoint r) render
  | POST_generate_voice r => serve (generate_voice_endpoint r) render
  | POST_create_video f s r => serve (create_video_endpoint f s r) render
  | POST_upload_script f => serve (upload_script_endpoint f) render
  | GET_list_outputs => serve list_outputs render
  | DELETE_delete_file f => serve (delete_file f) render
  end.


Definition response_status (r : HttpResponse) : Z :=
  match r with
  | JSONResponse sc _ => sc
  | FileResponse _ => 200
  end.

End WithConfig.
End api_server.

(** * Properties of the library models *)

(** ** Checking a boolean property on every small number *)

Lemma forallb_below (P : N -> bool) (k : nat) :
  forallb P (map N.of_nat (seq 0 k)) = true ->
  forall n, (n < N.of_nat k)%N -> P n = true.
Proof.
  intros H n Hn.
  rewrite forallb_forall in H. apply H.
  apply in_map_iff. exists (N.to_nat n). split.
  - apply N2Nat.id.
  - apply in_seq. lia.
Qed.

Lemma byte_below (b : byte) : (Byte.to_N b < 256)%N.
Proof. pose proof (Byte.to_N_bounded b). lia. Qed.

Lemma byte_of_to_N (b : byte) : base64.byte_of_N (Byte.to_N b) = b.
Proof.
  unfold base64.byte_of_N.
  rewrite N.mod_small by apply byte_below.
  now rewrite Byte.of_to_N.
Qed.

Lemma byte_of_N_inj_small (n : N) (b : byte) :
  n = Byte.to_N b -> base64.byte_of_N n = b.
Proof. intros ->. apply byte_of_to_N. Qed.

Module base64_facts.
Import base64.

(** What the decoder needs to know about an alphabet character. *)
Definition sextet_ok (s : N) : bool :=
  match a2b (b2a s) with
  | Some s' => (s' =? s)%N
  | None => false
  end
  && negb (Byte.eqb (b2a s) pad)
  && negb (is_space (b2a s))
  && (Byte.to_N (b2a s) <? 128)%N.

Lemma sextets_ok : forall s, (s < 64)%N -> sextet_ok s = true.
Proof. apply (forallb_below sextet_ok 64). vm_compute. reflexivity. Qed.

Lemma a2b_b2a s : (s < 64)%N -> a2b (b2a s) = Some s.
Proof.
  intros H. pose proof (sextets_ok s H) as Hs. unfold sextet_ok in Hs.
  repeat (apply andb_prop in Hs; destruct Hs as [Hs ?]).
  destruct (a2b (b2a s)); [|discriminate].
  apply N.eqb_eq in Hs. now subst.
Qed.

Lemma b2a_not_pad s : (s < 64)%N -> Byte.eqb (b2a s) pad = false.
Proof.
  intros H. pose proof (sextets_ok s H) as Hs. unfold sextet_ok in Hs.
  repeat (apply andb_prop in Hs; destruct Hs as [Hs ?]).
  now apply negb_true_iff.
Qed.

Lemma b2a_not_space s : (s < 64)%N -> is_space (b2a s) = false.
Proof.
  intros H. pose proof (sextets_ok s H) as Hs. unfold sextet_ok in Hs.
  repeat (apply andb_prop in Hs; destruct Hs as [Hs ?]).
  now apply negb_true_iff.
Qed.

Lemma b2a_ascii s : (s < 64)%N -> (Byte.to_N (b2a s) < 128)%N.
Proof.
  intros H. pose proof (sextets_ok s H) as Hs. unfold sextet_ok in Hs.
  repeat (apply andb_prop in Hs; destruct Hs as [Hs ?]).
  now apply N.ltb_lt.
Qed.

(** The bit-level facts behind one quad, checked on all pairs of octets:
    [a] and [b] are neighbours in the input. *)
Definition quad_ok (a b : N) : bool :=
  let s1 := N.lor (N.shiftl (N.land a 3) 4) (N.shiftr b 4) in
  let s2 := N.lor (N.shiftl (N.land a 15) 2) (N.shiftr b 6) in
  (N.shiftr a 2 <? 64)%N
  && (s1 <? 64)%N
  && (s2 <? 64)%N
  && (N.land a 63 <? 64)%N
  && (N.shiftl (N.land a 3) 4 <? 64)%N
  && (N.shiftl (N.land a 15) 2 <? 64)%N
  && (N.lor (N.shiftl (N.shiftr a 2) 2) (N.shiftr s1 4) =? a)%N
  && (N.lor (N.shiftl (N.shiftr a 2) 2) (N.shiftr (N.shiftl (N.land a 3) 4) 4) =? a)%N
  && (N.land s1 15 =? N.shiftr b 4)%N
  && (N.shiftr s2 2 =? N.land a 15)%N
  && (N.shiftr (N.shiftl (N.land a 15) 2) 2 =? N.land a 15)%N
  && (N.lor (N.shiftl (N.shiftr a 4) 4) (N.land a 15) =? a)%N
  && (N.land s2 3 =? N.shiftr b 6)%N
  && (N.lor (N.shiftl (N.shiftr a 6) 6) (N.land a 63) =? a)%N.

Lemma quads_ok a b : (a < 256)%N -> (b < 256)%N -> quad_ok a b = true.
Proof.
  intros Ha Hb.
  assert (Hall : forallb (quad_ok a) (map N.of_nat (seq 0 256)) = true).
  { revert a Ha.
    apply (forallb_below
             (fun a => forallb (quad_ok a) (map N.of_nat (seq 0 256))) 256).
    vm_compute. reflexivity. }
  now apply (forallb_below (quad_ok a) 256 Hall).
Qed.

Lemma quad_facts (x y : byte) :
  let a := Byte.to_N x in
  let b := Byte.to_N y in
  let s1 := N.lor (N.shiftl (N.land a 3) 4) (N.shiftr b 4) in
  let s2 := N.lor (N.shiftl (N.land a 15) 2) (N.shiftr b 6) in
  (N.shiftr a 2 < 64)%N
  /\ (s1 < 64)%N
  /\ (s2 < 64)%N
  /\ (N.land a 63 < 64)%N
  /\ (N.shiftl (N.land a 3) 4 < 64)%N
  /\ (N.shiftl (N.land a 15) 2 < 64)%N
  /\ N.lor (N.shiftl (N.shiftr a 2) 2) (N.shiftr s1 4) = a
  /\ N.lor (N.shiftl (N.shiftr a 2) 2) (N.shiftr (N.shiftl (N.land a 3) 4) 4) = a
  /\ N.land s1 15 = N.shiftr b 4
  /\ N.shiftr s2 2 = N.land a 15
  /\ N.shiftr (N.shiftl (N.land a 15) 2) 2 = N.land a 15
  /\ N.lor (N.shiftl (N.shiftr a 4) 4) (N.land a 15) = a
  /\ N.land s2 3 = N.shiftr b 6
  /\ N.lor (N.shiftl (N.shiftr a 6) 6) (N.land a 63) = a.
Proof.
  intros a b s1 s2.
  pose proof (quads_ok a b (byte_below x) (byte_below y)) as H.
  unfold quad_ok in H. fold s1 s2 in H.
  repeat rewrite andb_true_iff in H.
  repeat rewrite N.ltb_lt in H. repeat rewrite N.eqb_eq in H.
  tauto.
Qed.

Lemma a2b_base64_char q l p s cs :
  (s < 64)%N ->
  a2b_base64 q l p (b2a s :: cs) =
    if (q =? 0)%N then a2b_base64 1 s 0 cs
    else if (q =? 1)%N then
      cons (byte_of_N (N.lor (N.shiftl l 2) (N.shiftr s 4)))
        <$> a2b_base64 2 (N.land s 15) 0 cs
    else if (q =? 2)%N then
      cons (byte_of_N (N.lor (N.shiftl l 4) (N.shiftr s 2)))
        <$> a2b_base64 3 (N.land s 3) 0 cs
    else
      cons (byte_of_N (N.lor (N.shiftl l 6) s)) <$> a2b_base64 0 0 0 cs.
Proof.
  intros Hs. cbn [a2b_base64].
  rewrite b2a_not_pad, a2b_b2a by assumption. reflexivity.
Qed.

(** Lists, three elements at a time. *)
Lemma list_ind3 {A} (P : list A -> Prop) :
  P [] -> (forall a, P [a]) -> (forall a b, P [a; b]) ->
  (forall a b c l, P l -> P (a :: b :: c :: l)) ->
  forall l, P l.
Proof.
  intros H0 H1 H2 H3.
  fix IH 1. intros [|a [|b [|c l]]];
    [apply H0 | apply H1 | apply H2 | apply H3, IH].
Qed.

(** Decoding undoes encoding. *)
Lemma a2b_base64_b64encode (bs : list byte) :
  a2b_base64 0 0 0 (b64encode bs) = Some bs.
Proof.
  induction bs as [|x0|x0 x1|x0 x1 x2 r IH] using list_ind3.
  - reflexivity.
  - pose proof (quad_facts x0 x0) as F. cbv zeta in F.
    destruct F as (F0 & _ & _ & _ & F4 & _ & _ & F7 & _).
    cbn [b64encode].
    rewrite a2b_base64_char by assumption. cbn [N.eqb].
    rewrite a2b_base64_char by assumption. cbn [N.eqb Pos.eqb].
    rewrite F7, byte_of_to_N. reflexivity.
  - pose proof (quad_facts x0 x1) as F. cbv zeta in F.
    destruct F as (F0 & F1 & _ & _ & _ & _ & F6 & _ & F8 & _).
    pose proof (quad_facts x1 x1) as G. cbv zeta in G.
    destruct G as (_ & _ & _ & _ & _ & G5 & _ & _ & _ & _ & G10 & G11 & _).
    cbn [b64encode].
    rewrite a2b_base64_char by assumption. cbn [N.eqb].
    rewrite a2b_base64_char by assumption. cbn [N.eqb Pos.eqb].
    rewrite a2b_base64_char by assumption. cbn [N.eqb Pos.eqb].
    rewrite F6, F8, G10, G11, !byte_of_to_N. reflexivity.
  - pose proof (quad_facts x0 x1) as F. cbv zeta in F.
    destruct F as (F0 & F1 & _ & _ & _ & _ & F6 & _ & F8 & _).
    pose proof (quad_facts x1 x2) as G. cbv zeta in G.
    destruct G as (_ & _ & G2 & _ & _ & _ & _ & _ & _ & G9 & _ & G11 & G12 & _).
    pose proof (quad_facts x2 x2) as K. cbv zeta in K.
    destruct K as (_ & _ & _ & K3 & _ & _ & _ & _ & _ & _ & _ & _ & _ & K13).
    cbn [b64encode].
    rewrite a2b_base64_char by assumption. cbn [N.eqb].
    rewrite a2b_base64_char by assumption. cbn [N.eqb Pos.eqb].
    rewrite a2b_base64_char by assumption. cbn [N.eqb Pos.eqb].
    rewrite a2b_base64_char by assumption. cbn [N.eqb Pos.eqb].
    rewrite F6, F8, G9, G11, G12, K13, !byte_of_to_N, IH. reflexivity.
Qed.

Lemma b64decode_b64encode (bs : list byte) :
  b64decode (b64encode bs) = Ret bs.
Proof. unfold b64decode. now rewrite a2b_base64_b64encode. Qed.

(** An encoding is plain ASCII without white space. *)
Definition plain (c : byte) : Prop :=
  is_space c = false /\ (Byte.to_N c < 128)%N.

Lemma plain_b2a s : (s < 64)%N -> plain (b2a s).
Proof. intros H. split; [now apply b2a_not_space | now apply b2a_ascii]. Qed.

Lemma plain_pad : plain pad.
Proof. split; vm_compute; reflexivity. Qed.

Lemma b64encode_plain (bs : list byte) : Forall plain (b64encode bs).
Proof.
  induction bs as [|x0|x0 x1|x0 x1 x2 r IH] using list_ind3.
  - constructor.
  - pose proof (quad_facts x0 x0) as F. cbv zeta in F.
    destruct F as (F0 & _ & _ & _ & F4 & _).
    cbn [b64encode].
    repeat (constructor; [first [apply plain_b2a; assumption | apply plain_pad]|]).
    constructor.
  - pose proof (quad_facts x0 x1) as F. cbv zeta in F.
    destruct F as (F0 & F1 & _).
    pose proof (quad_facts x1 x1) as G. cbv zeta in G.
    destruct G as (_ & _ & _ & _ & _ & G5 & _).
    cbn [b64encode].
    repeat (constructor; [first [apply plain_b2a; assumption | apply plain_pad]|]).
    constructor.
  - pose proof (quad_facts x0 x1) as F. cbv zeta in F.
    destruct F as (F0 & F1 & _).
    pose proof (quad_facts x1 x2) as G. cbv zeta in G.
    destruct G as (_ & _ & G2 & _).
    pose proof (quad_facts x2 x2) as K. cbv zeta in K.
    destruct K as (_ & _ & _ & K3 & _).
    cbn [b64encode].
    repeat (constructor; [apply plain_b2a; assumption|]). exact IH.
Qed.

End base64_facts.

(** ** Text *)

Lemma utf8_valid_ascii (bs : list byte) :
  Forall (fun b => (Byte.to_N b < 128)%N) bs -> utf8_valid bs = true.
Proof.
  induction 1 as [|b r Hb _ IH]; [reflexivity|].
  cbn [utf8_valid]. apply N.ltb_lt in Hb. now rewrite Hb.
Qed.

Lemma bytes_decode_ascii (bs : list byte) :
  Forall (fun b => (Byte.to_N b < 128)%N) bs ->
  bytes_decode bs = Ret (string_of_list_byte bs).
Proof. intros H. unfold bytes_decode. now rewrite utf8_valid_ascii. Qed.

Lemma lstrip_bytes_head (bs : list byte) :
  Forall (fun b => is_space b = false) bs -> lstrip_bytes bs = bs.
Proof. destruct 1 as [|b r Hb _]; [reflexivity|]. cbn. now rewrite Hb. Qed.

Lemma strip_bytes_id (bs : list byte) :
  Forall (fun b => is_space b = false) bs -> strip_bytes bs = bs.
Proof.
  intros H. unfold strip_bytes.
  rewrite (lstrip_bytes_head bs H).
  rewrite lstrip_bytes_head.
  - apply rev_involutive.
  - now apply List.Forall_rev.
Qed.

Lemma strip_plain (bs : list byte) :
  Forall base64_facts.plain bs ->
  strip (string_of_list_byte bs) = string_of_list_byte bs.
Proof.
  intros H. unfold strip.
  rewrite list_byte_of_string_of_list_byte, strip_bytes_id; [reflexivity|].
  eapply List.Forall_impl; [|exact H]. now intros b [Hb _].
Qed.

Lemma plain_ascii (bs : list byte) :
  Forall base64_facts.plain bs -> Forall (fun b => (Byte.to_N b < 128)%N) bs.
Proof. intros H. eapply List.Forall_impl; [|exact H]. now intros b [_ Hb]. Qed.

(** * The credential store *)

Module store_facts.
Import chatgpt_login.
Section WithLibraries.
Context {fernet : FernetLib} {json : JsonLib}.

(** [save_credentials] when the file system takes the write. *)
Lemma save_credentials_ok (self : SecureCredentialManager)
    (email password : string) (w : World) :
  io_passes w = true ->
  exists w',
    save_credentials self email password w = (Ret true, w')
    /\ files w' =
       <[credentials_file self :=
           credential_blob (cipher_suite self) (next_draw w) (time_time (clock w))
             (credential_record email password (time_time (clock w)))]> (files w)
    /\ io_faults w' = tl (io_faults w).
Proof.
  intros Hio.
  unfold save_credentials, _encrypt_credentials, fernet_encrypt, write_file,
    try_except, bind, ret, lift, now_time, draw_random, print, io_gate.
  unfold io_passes in Hio. unfold next_draw, credential_blob, credential_record.
  destruct (urandom w) as [|r rs]; cbn;
    (rewrite bytes_decode_ascii
      by (apply plain_ascii, base64_facts.b64encode_plain)); cbn;
    destruct (io_faults w) as [|[m|] fs] eqn:Hf; try discriminate; cbn;
    eexists; (split; [reflexivity|]); cbn; rewrite ?Hf; split; reflexivity.
Qed.

(** [save_credentials] when the file system refuses the write. *)
Lemma save_credentials_fault (self : SecureCredentialManager)
    (email password : string) (w : World) :
  io_passes w = false ->
  exists w',
    save_credentials self email password w = (Ret false, w')
    /\ files w' = files w.
Proof.
  intros Hio.
  unfold save_credentials, _encrypt_credentials, fernet_encrypt, write_file,
    try_except, bind, ret, lift, now_time, draw_random, print, io_gate.
  unfold io_passes in Hio.
  destruct (urandom w) as [|r rs]; cbn;
    (rewrite bytes_decode_ascii
      by (apply plain_ascii, base64_facts.b64encode_plain)); cbn;
    destruct (io_faults w) as [|[m|] fs]; try discriminate; cbn;
    eexists; (split; [reflexivity|]); reflexivity.
Qed.

(** Stripping white space leaves a blob as it is. *)
Lemma strip_credential_blob (c : cipher) (iv : list byte) (t : Z) (v : pyvalue) :
  strip (credential_blob c iv t v) = credential_blob c iv t v.
Proof.
  unfold credential_blob. apply strip_plain, base64_facts.b64encode_plain.
Qed.

(** Opening a freshly made blob gives the record back. *)
Lemma open_blob_credential_blob (c : cipher) (iv : list byte) (t : Z)
    (d : list (string * pyvalue)) :
  flat_record d ->
  open_blob c (credential_blob c iv t (PyDict d)) = Ret (PyDict d).
Proof.
  intros Hd. unfold credential_blob, open_blob, str_encode.
  rewrite list_byte_of_string_of_list_byte.
  rewrite base64_facts.b64decode_b64encode, decrypt_encrypt.
  rewrite bytes_decode_ascii by apply dumps_ascii.
  unfold str_encode. rewrite string_of_list_byte_of_string.
  now rewrite loads_dumps.
Qed.

Lemma credential_record_flat (email password : string) (t : Z) :
  flat_record [("email", PyStr email); ("password", PyStr password);
               ("timestamp", PyFloat t)].
Proof.
  split.
  - cbn. apply (bool_decide_unpack _). vm_compute. reflexivity.
  - repeat constructor.
Qed.

(** [_decrypt_credentials] is [open_blob], and leaves the world alone. *)
Lemma _decrypt_credentials_open_blob (self : SecureCredentialManager)
    (blob : string) (w : World) :
  _decrypt_credentials self blob w = (open_blob (cipher_suite self) blob, w).
Proof.
  unfold _decrypt_credentials, open_blob, fernet_decrypt, json_loads,
    bind, lift, ret, raise.
  destruct (base64.b64decode (str_encode blob)) as [token|e]; [|reflexivity].
  destruct (decrypt (cipher_suite self) token) as [pt|]; [|reflexivity].
  destruct (bytes_decode pt) as [text|e]; [|reflexivity].
  destruct (loads text); reflexivity.
Qed.

(** [load_credentials], case by case. *)
Lemma load_credentials_value (self : SecureCredentialManager) (w : World) :
  fst (load_credentials self w) =
  Ret (match files w !! credentials_file self with
       | None => None
       | Some content =>
         if io_passes w then load_outcome (cipher_suite self) content else None
       end).
Proof.
  unfold load_credentials, path_exists, read_file, try_except, bind, ret, lift,
    print, io_gate, io_passes, load_outcome.
  destruct (files w !! credentials_file self) as [content|] eqn:Hf;
    cbn -[_decrypt_credentials strip getitem].
  2: reflexivity.
  destruct (io_faults w) as [|[m|] fs]; cbn -[_decrypt_credentials strip getitem];
    rewrite ?Hf; cbn -[_decrypt_credentials strip getitem]; try reflexivity.
  all: rewrite _decrypt_credentials_open_blob;
    destruct (open_blob (cipher_suite self) (strip content)) as [v|e];
    cbn -[strip getitem]; try reflexivity;
    destruct (getitem v "email"); reflexivity.
Qed.


Lemma clear_credentials_run (self : SecureCredentialManager) (w : World) :
  exists w',
    clear_credentials self w =
      (Ret (match files w !! credentials_file self with
            | None => true
            | Some _ => io_passes w
            end), w')
    /\ files w' =
       (if io_passes w then delete (credentials_file self) (files w) else files w).
Proof.
  unfold clear_credentials, path_exists, unlink, try_except, bind, ret, print,
    io_gate, io_passes.
  destruct (files w !! credentials_file self) as [content|] eqn:Hf; cbn.
  - destruct (io_faults w) as [|[m|] fs]; cbn; rewrite ?Hf; cbn;
      eexists; split; reflexivity.
  - eexists; split; [reflexivity|].
    cbn. destruct (io_faults w) as [|[m|] fs]; try reflexivity;
      symmetry; now apply delete_id.
Qed.

Lemma load_credentials_absent (self : SecureCredentialManager) (w : World) :
  files w !! credentials_file self = None ->
  load_credentials self w = (Ret None, w).
Proof.
  intros Hf. unfold load_credentials, path_exists, bind, ret. now rewrite Hf.
Qed.




End WithLibraries.
End store_facts.

(** * Reference implementations of the library interfaces

    Small executable stand-ins that satisfy the laws of [FernetLib] and
    [JsonLib]; the properties below are instantiated with them on concrete
    worlds. *)

Module reference.

(** ** A cipher that only frames its input *)

Definition frame : byte := "128"%byte.

Definition null_encrypt (k iv : list byte) (t : Z) (m : list byte) : list byte :=
  frame :: m.

Definition null_decrypt (k token : list byte) : option (list byte) :=
  match token with
  | b :: m => if Byte.eqb b frame then Some m else None
  | [] => None
  end.

Lemma null_decrypt_encrypt k iv t m :
  null_decrypt k (null_encrypt k iv t m) = Some m.
Proof. reflexivity. Qed.

Definition null_fernet : FernetLib :=
  {| cipher := list byte;
     Fernet := fun k => Ret k;
     generate_key := fun r => r;
     encrypt := null_encrypt;
     decrypt := null_decrypt;
     Fernet_generate_key := fun r => ex_intro _ r eq_refl;
     decrypt_encrypt := null_decrypt_encrypt |}.

(** ** A serializer of flat records

    Every field is written in hexadecimal and closed by a dot, so the text is
    ASCII whatever the strings hold. *)

Definition nibble (c : ascii) : option N :=
  let n := N_of_ascii c in
  if ((48 <=? n) && (n <=? 57))%N then Some (n - 48)%N
  else if ((97 <=? n) && (n <=? 102))%N then Some (n - 87)%N
  else None.

Definition dot : ascii := ".".

(** Reads hexadecimal octets up to the closing dot. *)
Fixpoint unhex (s : string) : option (list byte * string) :=
  match s with
  | EmptyString => None
  | String a s' =>
    if Ascii.eqb a dot then Some ([], s')
    else match s' with
    | EmptyString => None
    | String b s'' =>
      match nibble a, nibble b, unhex s'' with
      | Some x, Some y, Some (bs, rest) =>
        Some (base64.byte_of_N (16 * x + y) :: bs, rest)
      | _, _, _ => None
      end
    end
  end.

Definition field (s : string) : string :=
  hex (list_byte_of_string s) +:+ String dot EmptyString.

Definition unfield (s : string) : option (string * string) :=
  match unhex s with
  | Some (bs, rest) => Some (string_of_list_byte bs, rest)
  | None => None
  end.

Definition number (z : Z) : string := field (NilEmpty.string_of_int (Z.to_int z)).

Definition unnumber (s : string) : option (Z * string) :=
  match unfield s with
  | Some (digits, rest) =>
    match NilEmpty.int_of_string digits with
    | Some d => Some (Z.of_int d, rest)
    | None => None
    end
  | None => None
  end.

Definition write_scalar (v : pyvalue) : string :=
  match v with
  | PyNone => "n"
  | PyBool true => "t"
  | PyBool false => "f"
  | PyNum z => "i" +:+ number z
  | PyFloat z => "r" +:+ number z
  | PyStr s => "s" +:+ field s
  | PyList _ => "l"
  | PyDict _ => "o"
  end.

Definition read_scalar (s : string) : option (pyvalue * string) :=
  match s with
  | String tag rest =>
    if Ascii.eqb tag "n" then Some (PyNone, rest)
    else if Ascii.eqb tag "t" then Some (PyBool true, rest)
    else if Ascii.eqb tag "f" then Some (PyBool false, rest)
    else if Ascii.eqb tag "i" then
      match unnumber rest with Some (z, r) => Some (PyNum z, r) | None => None end
    else if Ascii.eqb tag "r" then
      match unnumber rest with Some (z, r) => Some (PyFloat z, r) | None => None end
    else if Ascii.eqb tag "s" then
      match unfield rest with Some (x, r) => Some (PyStr x, r) | None => None end
    else None
  | EmptyString => None
  end.

Definition write_member (kv : string * pyvalue) : string :=
  field (fst kv) +:+ write_scalar (snd kv).

Fixpoint write_members (d : list (string * pyvalue)) : string :=
  match d with
  | [] => ""
  | kv :: d' => write_member kv +:+ write_members d'
  end.

Fixpoint tally (n : nat) : string :=
  match n with
  | O => String dot EmptyString
  | S n' => String "m" (tally n')
  end.

Fixpoint untally (s : string) : option (nat * string) :=
  match s with
  | EmptyString => None
  | String c s' =>
    if Ascii.eqb c dot then Some (O, s')
    else if Ascii.eqb c "m" then
      match untally s' with
      | Some (n, rest) => Some (S n, rest)
      | None => None
      end
    else None
  end.

Fixpoint read_members (n : nat) (s : string)
  : option (list (string * pyvalue) * string) :=
  match n with
  | O => Some ([], s)
  | S n' =>
    match unfield s with
    | Some (k, s1) =>
      match read_scalar s1 with
      | Some (v, s2) =>
        match read_members n' s2 with
        | Some (d, rest) => Some ((k, v) :: d, rest)
        | None => None
        end
      | None => None
      end
    | None => None
    end
  end.

Definition flat_dumps (v : pyvalue) : string :=
  match v with
  | PyDict d => "d" +:+ tally (List.length d) +:+ write_members d
  | _ => "v" +:+ write_scalar v
  end.

Definition flat_loads (s : string) : option pyvalue :=
  match s with
  | String tag rest =>
    if Ascii.eqb tag "d" then
      match untally rest with
      | Some (n, body) =>
        match read_members n body with
        | Some (d, EmptyString) => Some (PyDict d)
        | _ => None
        end
      | None => None
      end
    else if Ascii.eqb tag "v" then
      match read_scalar rest with
      | Some (v, EmptyString) => Some v
      | _ => None
      end
    else None
  | EmptyString => None
  end.

(** *** Its laws *)

Definition nibble_ok (n : N) : bool :=
  match nibble (hex_digit n) with
  | Some n' => (n' =? n)%N
  | None => false
  end
  && negb (Ascii.eqb (hex_digit n) dot)
  && (N_of_ascii (hex_digit n) <? 128)%N.

Lemma nibbles_ok n : (n < 16)%N -> nibble_ok n = true.
Proof. revert n. apply (forallb_below nibble_ok 16). vm_compute. reflexivity. Qed.

Lemma nibble_facts n :
  (n < 16)%N ->
  nibble (hex_digit n) = Some n
  /\ Ascii.eqb (hex_digit n) dot = false
  /\ (N_of_ascii (hex_digit n) < 128)%N.
Proof.
  intros H. pose proof (nibbles_ok n H) as K. unfold nibble_ok in K.
  apply andb_prop in K. destruct K as [K K3].
  apply andb_prop in K. destruct K as [K1 K2].
  destruct (nibble (hex_digit n)); [|discriminate].
  apply N.eqb_eq in K1. apply negb_true_iff in K2. apply N.ltb_lt in K3.
  subst. auto.
Qed.

Lemma append_cons (c : ascii) (a b : string) :
  String c a +:+ b = String c (a +:+ b).
Proof. reflexivity. Qed.

Lemma append_nil (b : string) : "" +:+ b = b.
Proof. reflexivity. Qed.

Lemma unhex_hex (bs : list byte) (rest : string) :
  unhex (hex bs +:+ String dot rest) = Some (bs, rest).
Proof.
  induction bs as [|b r IH]; [reflexivity|].
  pose proof (byte_below b) as Hb.
  assert (Hhi : (Byte.to_N b / 16 < 16)%N)
    by (apply N.Div0.div_lt_upper_bound; lia).
  assert (Hlo : (Byte.to_N b mod 16 < 16)%N) by (apply N.mod_lt; lia).
  destruct (nibble_facts _ Hhi) as (H1 & H2 & _).
  destruct (nibble_facts _ Hlo) as (L1 & _ & _).
  cbn [hex]. rewrite !append_cons. cbn [unhex].
  rewrite H2, H1, L1, IH.
  rewrite <- N.div_mod by lia. now rewrite byte_of_to_N.
Qed.

Lemma append_assoc (a b c : string) : (a +:+ b) +:+ c = a +:+ (b +:+ c).
Proof.
  induction a as [|x a IH]; [reflexivity|]. now rewrite !append_cons, IH.
Qed.

Lemma unfield_field (s rest : string) :
  unfield (field s +:+ rest) = Some (s, rest).
Proof.
  unfold unfield, field. rewrite append_assoc, append_cons, append_nil.
  rewrite unhex_hex. now rewrite string_of_list_byte_of_string.
Qed.

Lemma unnumber_number (z : Z) (rest : string) :
  unnumber (number z +:+ rest) = Some (z, rest).
Proof.
  unfold unnumber, number. rewrite unfield_field, NilEmpty.isi.
  now rewrite DecimalZ.of_to.
Qed.

Lemma read_write_scalar (v : pyvalue) (rest : string) :
  is_scalar v = true ->
  read_scalar (write_scalar v +:+ rest) = Some (v, rest).
Proof.
  destruct v as [| [|] | z | z | s | l | d]; intros Hv; try discriminate;
    cbn [write_scalar]; rewrite ?append_cons, ?append_nil;
    cbn [read_scalar]; cbn [Ascii.eqb Bool.eqb];
    rewrite ?unnumber_number, ?unfield_field; reflexivity.
Qed.

Lemma read_write_members (d : list (string * pyvalue)) (rest : string) :
  Forall (fun kv => is_scalar (snd kv) = true) d ->
  read_members (List.length d) (write_members d +:+ rest) = Some (d, rest).
Proof.
  induction 1 as [|[k v] d Hv _ IH]; [reflexivity|].
  cbn [List.length write_members read_members]. unfold write_member.
  cbn [fst snd] in *.
  rewrite !append_assoc, unfield_field, read_write_scalar by exact Hv.
  now rewrite IH.
Qed.

Lemma untally_tally (n : nat) (rest : string) :
  untally (tally n +:+ rest) = Some (n, rest).
Proof.
  induction n as [|n IH]; [reflexivity|].
  cbn [tally]. rewrite append_cons. cbn [untally]. cbn [Ascii.eqb Bool.eqb].
  now rewrite IH.
Qed.

Lemma append_empty (a : string) : a +:+ "" = a.
Proof.
  induction a as [|x a IH]; [reflexivity|]. now rewrite append_cons, IH.
Qed.

Lemma flat_loads_dumps (d : list (string * pyvalue)) :
  flat_record d -> flat_loads (flat_dumps (PyDict d)) = Some (PyDict d).
Proof.
  intros [_ Hd]. cbn [flat_dumps]. rewrite append_cons, append_nil.
  cbn [flat_loads]. cbn [Ascii.eqb Bool.eqb].
  rewrite untally_tally.
  rewrite <- (append_empty (write_members d)), read_write_members by exact Hd.
  reflexivity.
Qed.

(** Everything written is ASCII. *)
Definition ascii_text (s : string) : Prop :=
  Forall (fun b => (Byte.to_N b < 128)%N) (str_encode s).

Lemma ascii_text_app (a b : string) :
  ascii_text a -> ascii_text b -> ascii_text (a +:+ b).
Proof.
  unfold ascii_text, str_encode. induction a as [|x a IH]; [auto|].
  rewrite append_cons. cbn [list_byte_of_string].
  intros Ha Hb. inversion Ha; subst. constructor; auto.
Qed.

Lemma to_N_byte_of_ascii (c : ascii) : Byte.to_N (byte_of_ascii c) = N_of_ascii c.
Proof. apply Byte.to_of_N. symmetry. apply byte_of_ascii_via_N. Qed.

Lemma ascii_text_cons (c : ascii) (s : string) :
  (N_of_ascii c < 128)%N -> ascii_text s -> ascii_text (String c s).
Proof.
  intros Hc Hs. unfold ascii_text, str_encode. cbn [list_byte_of_string].
  constructor; [now rewrite to_N_byte_of_ascii | exact Hs].
Qed.

Lemma ascii_text_nil : ascii_text "".
Proof. constructor. Qed.

Ltac ascii_literal :=
  repeat (apply ascii_text_cons; [reflexivity|]); apply ascii_text_nil.

Lemma ascii_text_hex (bs : list byte) : ascii_text (hex bs).
Proof.
  induction bs as [|b r IH]; [apply ascii_text_nil|].
  pose proof (byte_below b) as Hb.
  assert (Hhi : (Byte.to_N b / 16 < 16)%N)
    by (apply N.Div0.div_lt_upper_bound; lia).
  assert (Hlo : (Byte.to_N b mod 16 < 16)%N) by (apply N.mod_lt; lia).
  destruct (nibble_facts _ Hhi) as (_ & _ & H3).
  destruct (nibble_facts _ Hlo) as (_ & _ & L3).
  cbn [hex]. now repeat apply ascii_text_cons.
Qed.

Lemma ascii_text_field (s : string) : ascii_text (field s).
Proof.
  unfold field. apply ascii_text_app; [apply ascii_text_hex | ascii_literal].
Qed.

Lemma ascii_text_scalar (v : pyvalue) : ascii_text (write_scalar v).
Proof.
  destruct v as [| [|] | z | z | s | l | d]; cbn [write_scalar];
    try ascii_literal;
    (apply ascii_text_app; [ascii_literal | apply ascii_text_field]).
Qed.

Lemma ascii_text_members (d : list (string * pyvalue)) :
  ascii_text (write_members d).
Proof.
  induction d as [|kv d IH]; [apply ascii_text_nil|].
  cbn [write_members]. unfold write_member.
  apply ascii_text_app; [apply ascii_text_app|exact IH].
  - apply ascii_text_field.
  - apply ascii_text_scalar.
Qed.

Lemma ascii_text_tally (n : nat) : ascii_text (tally n).
Proof.
  induction n as [|n IH]; cbn [tally];
    [ascii_literal | apply ascii_text_cons; [reflexivity | exact IH]].
Qed.

Lemma flat_dumps_ascii (v : pyvalue) : ascii_text (flat_dumps v).
Proof.
  destruct v; cbn [flat_dumps];
    try (apply ascii_text_app; [ascii_literal | apply ascii_text_scalar]).
  apply ascii_text_app; [ascii_literal|].
  apply ascii_text_app; [apply ascii_text_tally | apply ascii_text_members].
Qed.

Definition flat_json : JsonLib :=
  {| dumps := flat_dumps;
     loads := flat_loads;
     dumps_ascii := flat_dumps_ascii;
     loads_dumps := flat_loads_dumps |}.

End reference.

(** ** Concrete worlds *)

Module reference_world.
Import chatgpt_login.

Definition clock0 : Clock :=
  {| time_time := 1700000000000000;
     calendar := fun _ => "20231114_221320";
     isoformat_now := "2023-11-14T22:13:20";
     mtime_iso := fun _ => "2023-11-14T22:13:20" |}.

Definition silent : Remote :=
  {| openai_replies := []; elevenlabs_replies := [];
     runway_replies := []; http_replies := [] |}.

(** Nothing on disk, nothing in the environment, no fault ahead. *)
Definition world0 : World :=
  {| files := ∅; environ := ∅; stdout := []; stdin := [];
     io_faults := []; urandom := []; clock := clock0; remote := silent;
     trace := [] |}.

(** A stored blob that is not base64 at all, and both credential variables
    set. *)
Definition world1 : World :=
  {| files := {[ ".chatgpt_credentials" := "!" ]};
     environ := {[ "CHATGPT_EMAIL" := "env@example.com";
                   "CHATGPT_PASSWORD" := "from-env" ]};
     stdout := []; stdin := ["typed@example.com"; "typed"; "y"];
     io_faults := []; urandom := []; clock := clock0; remote := silent;
     trace := [] |}.

Definition manager0 : @SecureCredentialManager reference.null_fernet :=
  @Build_SecureCredentialManager reference.null_fernet
    ".chatgpt_key" ".chatgpt_credentials"
    (list_byte_of_string "k") (list_byte_of_string "k").

End reference_world.

(** * The credential store: claims *)

Module store_claims.
Import chatgpt_login store_facts.
Section WithLibraries.
Context {fernet : FernetLib} {json : JsonLib}.

Lemma io_calm_2 (w : World) :
  io_calm 2 w = true ->
  io_passes w = true
  /\ forall w', io_faults w' = tl (io_faults w) -> io_passes w' = true.
Proof.
  unfold io_calm, io_passes. destruct (io_faults w) as [|[m|] [|[m'|] fs]];
    cbn; intros H; try discriminate; split; try reflexivity;
    intros w' ->; reflexivity.
Qed.

(** C1.  Saving an email and a password and then loading, with the same key
    and no write in between, gives back a record whose email and password
    are the ones saved, whenever the file system serves the write and the
    read. *)
Theorem save_then_load_roundtrip
    (self self' : SecureCredentialManager) (email password : string) (w : World) :
  cipher_suite self' = cipher_suite self ->
  credentials_file self' = credentials_file self ->
  io_calm 2 w = true ->
  exists w1 record,
    save_credentials self email password w = (Ret true, w1)
    /\ fst (load_credentials self' w1) = Ret (Some record)
    /\ getitem record "email" = Ret (PyStr email)
    /\ getitem record "password" = Ret (PyStr password).
Proof.
  intros Hc Hf Hio.
  destruct (io_calm_2 w Hio) as [Hw Hread].
  destruct (save_credentials_ok self email password w Hw)
    as (w1 & Hsave & Hfiles & Hfaults).
  exists w1, (credential_record email password (time_time (clock w))).
  split; [exact Hsave|]. split; [|split; reflexivity].
  rewrite load_credentials_value, Hf, Hc, Hfiles, lookup_insert_eq.
  rewrite (Hread w1 Hfaults).
  unfold load_outcome. rewrite strip_credential_blob.
  unfold credential_record.
  rewrite open_blob_credential_blob by apply credential_record_flat.
  reflexivity.
Qed.

(** C2.  Once [clear_credentials] has returned [True] the blob file does not
    exist, and a load, now or in any later world where the file is still
    absent, returns [None]. *)
Theorem clear_then_absent (self : SecureCredentialManager) (w w1 : World) :
  clear_credentials self w = (Ret true, w1) ->
  files w1 !! credentials_file self = None
  /\ load_credentials self w1 = (Ret None, w1)
  /\ forall w2, files w2 !! credentials_file self = None ->
               load_credentials self w2 = (Ret None, w2).
Proof.
  intros Hclear.
  assert (Habsent : files w1 !! credentials_file self = None).
  { destruct (clear_credentials_run self w) as (w' & Hrun & Hfiles).
    rewrite Hrun in Hclear. injection Hclear as Hret <-.
    rewrite Hfiles.
    destruct (files w !! credentials_file self) as [content|] eqn:Hf.
    - rewrite Hret. apply lookup_delete_eq.
    - destruct (io_passes w); [apply lookup_delete_eq | exact Hf]. }
  split; [exact Habsent|].
  split; [now apply load_credentials_absent|].
  intros w2. apply load_credentials_absent.
Qed.


(** C8.  A save that reaches the disk leaves, under the credentials path, the
    base64 encoding of the Fernet encryption of the JSON serialization of
    the record of email, password and timestamp, whatever was there before,
    and touches no other file; a save that fails leaves the files alone.
    Decryption is base64-decoding, decrypting and JSON-parsing, and gives
    the record back. *)
Theorem blob_is_base64_of_fernet_of_json
    (self : SecureCredentialManager) (email password : string) (w : World) :
  let t := time_time (clock w) in
  let record := credential_record email password t in
  let blob := credential_blob (cipher_suite self) (next_draw w) t record in
  files (snd (save_credentials self email password w)) =
    (if io_passes w then <[credentials_file self := blob]> (files w)
     else files w)
  /\ (forall b w0,
        _decrypt_credentials self b w0 = (open_blob (cipher_suite self) b, w0))
  /\ open_blob (cipher_suite self) blob = Ret record.
Proof.
  intros t record blob. split; [|split].
  - destruct (io_passes w) eqn:Hio.
    + destruct (save_credentials_ok self email password w Hio)
        as (w' & -> & Hf & _).
      exact Hf.
    + destruct (save_credentials_fault self email password w Hio)
        as (w' & -> & Hf).
      exact Hf.
  - apply _decrypt_credentials_open_blob.
  - apply open_blob_credential_blob, credential_record_flat.
Qed.

(** C9.  With CHATGPT_EMAIL and CHATGPT_PASSWORD both set and non-empty,
    [get_credentials] returns that pair; apart from one printed line the
    world is untouched, so neither the store nor the console input was
    used. *)
Theorem environment_credentials_first
    (self : ChatGPTLogin) (w : World) (email password : string) :
  environ w !! "CHATGPT_EMAIL" = Some email ->
  environ w !! "CHATGPT_PASSWORD" = Some password ->
  email <> "" ->
  password <> "" ->
  get_credentials self w =
    (Ret (PyStr email, PyStr password),
     set_stdout
       (stdout w ++ ["✅ Using credentials from environment variables"]) w).
Proof.
  intros He Hp Hne Hnp.
  unfold get_credentials, getenv, bind, ret, print. rewrite He, Hp.
  unfold env_set.
  destruct (String.eqb_spec email ""); [contradiction|].
  destruct (String.eqb_spec password ""); [contradiction|].
  reflexivity.
Qed.

End WithLibraries.
End store_claims.

Lemma save_then_load_roundtrip_witness :
  exists w1 record,
    @chatgpt_login.save_credentials reference.null_fernet reference.flat_json
      reference_world.manager0
      "test@example.com" "testpassword123" reference_world.world0 = (Ret true, w1)
    /\ fst (@chatgpt_login.load_credentials reference.null_fernet
              reference.flat_json reference_world.manager0 w1)
       = Ret (Some record)
    /\ getitem record "email" = Ret (PyStr "test@example.com")
    /\ getitem record "password" = Ret (PyStr "testpassword123").
Proof.
  apply (@store_claims.save_then_load_roundtrip
           reference.null_fernet reference.flat_json
           reference_world.manager0 reference_world.manager0);
    reflexivity.
Defined.

Lemma clear_then_absent_witness :
  let self := reference_world.manager0 in
  let clear := @chatgpt_login.clear_credentials reference.null_fernet self in
  let load := @chatgpt_login.load_credentials reference.null_fernet
                reference.flat_json self in
  let w1 := snd (clear reference_world.world1) in
  clear reference_world.world1 = (Ret true, w1)
  /\ files w1 !! ".chatgpt_credentials" = None
  /\ load w1 = (Ret None, w1).
Proof.
  cbv zeta. split; [reflexivity|].
  pose proof (@store_claims.clear_then_absent
                reference.null_fernet reference.flat_json
                reference_world.manager0 reference_world.world1 _ eq_refl)
    as (H1 & H2 & _).
  split; [exact H1 | exact H2].
Defined.

Lemma environment_credentials_first_witness :
  @chatgpt_login.get_credentials reference.null_fernet reference.flat_json
    (chatgpt_login.Build_ChatGPTLogin reference_world.manager0)
    reference_world.world1 =
  (Ret (PyStr "env@example.com", PyStr "from-env"),
   set_stdout ["✅ Using credentials from environment variables"]
     reference_world.world1).
Proof.
  apply (@store_claims.environment_credentials_first
           reference.null_fernet reference.flat_json
           (chatgpt_login.Build_ChatGPTLogin reference_world.manager0)
           reference_world.world1 "env@example.com" "from-env");
    [reflexivity | reflexivity | discriminate | discriminate].
Defined.

(** * The poll loop of [create_video] *)

Module poll_facts.
Import video_edit.

(** One turn either raises, or breaks out with a video URL, or sleeps five
    seconds and counts one more attempt; it sends exactly one request. *)
Lemma poll_body_cases (url : string) (s : poll_state) (w : World) :
  (exists e w',
      poll_body url s w = (Raise e, w')
      /\ trace w' = (trace w ++ [EvGet url])%list)
  \/ (exists u w',
      poll_body url s w =
        (Ret ({| attempts := attempts s; video_url := u |}, true), w')
      /\ truthy u = true
      /\ trace w' = (trace w ++ [EvGet url])%list)
  \/ (exists w',
      poll_body url s w =
        (Ret ({| attempts := attempts s + 1; video_url := video_url s |}, false), w')
      /\ trace w' = (trace w ++ [EvGet url; EvSleep 5])%list).
Proof.
  unfold poll_body, requests_get, take_reply, response_json, sleep, log, print,
    bind, ret, raise, lift.
  cbn.
  destruct (http_replies (remote w)) as [|[e|resp] rs]; cbn.
  - left. eauto.
  - left. eauto.
  - destruct (resp_ok resp); cbn; [|left; eauto].
    destruct (resp_json resp) as [data|]; cbn; [|left; eauto].
    destruct (dict_get data "status") as [status|e] eqn:Hs; cbn; [|left; eauto].
    destruct (eq_str status "completed"); cbn.
    + destruct (dict_get data "video") as [u|e]; cbn; [|left; eauto].
      destruct (truthy u) eqn:Hu; cbn; [|left; eauto].
      right; left. exists u. eauto.
    + destruct (eq_str status "failed"); cbn; [left; eauto|].
      right; right. eexists. split; [reflexivity|].
      cbn. now rewrite <- app_assoc.
Qed.

(** [k] full turns: a request, then five seconds of sleep. *)
Definition turns (url : string) (k : nat) : list event :=
  concat (repeat [EvGet url; EvSleep 5] k).

Lemma count_gets_turns url k last :
  count_gets (turns url k ++ last) = (k + count_gets last)%nat.
Proof.
  unfold turns. induction k as [|k IH]; [reflexivity|].
  cbn. now rewrite IH.
Qed.

Lemma slept_turns url k last :
  slept (turns url k ++ last) = 5 * Z.of_nat k + slept last.
Proof.
  unfold turns. induction k as [|k IH]; [reflexivity|].
  cbn [repeat concat app slept]. rewrite IH. lia.
Qed.

Lemma while_loop_step {S : Type} (fuel : nat) (cond : S -> bool)
    (body : S -> M (S * bool)) (s : S) (w : World) :
  while_loop (Datatypes.S fuel) cond body s w =
    if cond s then
      match body s w with
      | (Ret r, w') =>
        if snd r then (Ret (Some (fst r)), w')
        else while_loop fuel cond body (fst r) w'
      | (Raise e, w') => (Raise e, w')
      end
    else (Ret (Some s), w).
Proof.
  cbn [while_loop]. destruct (cond s); [|reflexivity].
  unfold bind. destruct (body s w) as [[r|e] w']; [|reflexivity].
  destruct (snd r); reflexivity.
Qed.

(** From a state with [n] attempts left, the loop ends within [n] turns,
    whatever the service answers, provided the model is given more than [n]
    turns of fuel; more fuel changes nothing. *)
Lemma while_poll_ends (url : string) :
  forall (n fuel : nat) (s : poll_state) (w : World),
    attempts s = max_attempts - Z.of_nat n ->
    (n < fuel)%nat ->
    let r := while_loop fuel poll_cond (poll_body url) s w in
    (exists k last,
        trace (snd r) = (trace w ++ turns url k ++ last)%list
        /\ (last = [] \/ last = [EvGet url])
        /\ (k + List.length last <= n)%nat)
    /\ fst r <> Ret None
    /\ r = while_loop (S n) poll_cond (poll_body url) s w.
Proof.
  induction n as [|n IH]; intros fuel s w Hs Hfuel; cbv zeta;
    (destruct fuel as [|fuel]; [lia|]); rewrite !while_loop_step;
    unfold poll_cond, max_attempts in *.
  - replace (attempts s <? 60) with false by (symmetry; apply Z.ltb_ge; lia).
    cbn. split; [|split; [discriminate | reflexivity]].
    exists O, []. rewrite app_nil_r. auto.
  - replace (attempts s <? 60) with true by (symmetry; apply Z.ltb_lt; lia).
    destruct (poll_body_cases url s w)
      as [(e & w' & -> & Ht) | [(u & w' & -> & Hu & Ht) | (w' & -> & Ht)]].
    + cbn. split; [|split; [discriminate | reflexivity]].
      exists O, [EvGet url]. rewrite Ht. cbn. split; [reflexivity|].
      split; [now right | lia].
    + cbn. split; [|split; [discriminate | reflexivity]].
      exists O, [EvGet url]. rewrite Ht. cbn. split; [reflexivity|].
      split; [now right | lia].
    + cbn [snd fst].
      destruct (IH fuel {| attempts := attempts s + 1; video_url := video_url s |} w')
        as ((k & last & Hk & Hlast & Hle) & Hnone & Heq).
      { cbn. lia. }
      { lia. }
      split; [|split].
      * exists (S k), last. rewrite Hk, Ht.
        unfold turns. cbn [repeat concat]. rewrite <- !app_assoc.
        split; [reflexivity|]. split; [exact Hlast | lia].
      * exact Hnone.
      * exact Heq.
Qed.

(** A turn that meets a pending reply sleeps and goes on. *)
Lemma poll_body_pending (url : string) (s : poll_state) (w : World)
    (resp : Response) (rest : list (exn + Response)) :
  http_replies (remote w) = inr resp :: rest ->
  is_pending resp = true ->
  exists w',
    poll_body url s w =
      (Ret ({| attempts := attempts s + 1; video_url := video_url s |}, false), w')
    /\ trace w' = (trace w ++ [EvGet url; EvSleep 5])%list
    /\ http_replies (remote w') = rest
    /\ files w' = files w /\ io_faults w' = io_faults w
    /\ clock w' = clock w /\ stdout w' = stdout w.
Proof.
  intros Hr Hp. unfold is_pending in Hp.
  apply andb_prop in Hp. destruct Hp as [Hok Hj].
  destruct (resp_json resp) as [[| | | | | |d]|] eqn:Hjson; try discriminate.
  apply andb_prop in Hj. destruct Hj as [Hc Hf].
  apply negb_true_iff in Hc, Hf.
  unfold poll_body, requests_get, take_reply, response_json, sleep, log, print,
    bind, ret, raise, lift.
  cbn. rewrite Hr. cbn. rewrite Hok, Hjson. cbn. rewrite Hc, Hf. cbn.
  eexists. split; [reflexivity|]. cbn. rewrite <- app_assoc.
  repeat split; reflexivity.
Qed.

(** Sixty pending replies in a row use up all the attempts. *)
Lemma while_poll_pending (url : string) :
  forall (rs : list Response) (fuel : nat) (s : poll_state) (w : World)
         (rest : list (exn + Response)),
    http_replies (remote w) = (map inr rs ++ rest)%list ->
    Forall (fun r => is_pending r = true) rs ->
    attempts s = max_attempts - Z.of_nat (List.length rs) ->
    (List.length rs < fuel)%nat ->
    exists w',
      while_loop fuel poll_cond (poll_body url) s w =
        (Ret (Some {| attempts := max_attempts; video_url := video_url s |}), w')
      /\ trace w' = (trace w ++ turns url (List.length rs))%list
      /\ http_replies (remote w') = rest
      /\ files w' = files w /\ io_faults w' = io_faults w
      /\ clock w' = clock w /\ stdout w' = stdout w.
Proof.
  induction rs as [|r rs IH]; intros fuel s w rest Hr Hp Hs Hfuel;
    (destruct fuel as [|fuel]; [cbn in Hfuel; lia|]); rewrite while_loop_step;
    unfold poll_cond, max_attempts in *; cbn [List.length] in *.
  - replace (attempts s <? 60) with false by (symmetry; apply Z.ltb_ge; lia).
    exists w. cbn in Hr. unfold turns. cbn. rewrite app_nil_r.
    destruct s as [a u]. cbn in *. replace a with 60 by lia.
    repeat split; auto.
  - replace (attempts s <? 60) with true by (symmetry; apply Z.ltb_lt; lia).
    inversion Hp as [|? ? Hr1 Hrs]; subst.
    destruct (poll_body_pending url s w r (map inr rs ++ rest)%list Hr Hr1)
      as (w1 & -> & Ht & Hh & Hfi & Hio & Hcl & Hso).
    cbn [fst snd].
    destruct (IH fuel {| attempts := attempts s + 1; video_url := video_url s |}
                w1 rest Hh Hrs) as (w' & -> & Ht' & Hh' & Hfi' & Hio' & Hcl' & Hso').
    { cbn. lia. }
    { lia. }
    exists w'. cbn [video_url]. split; [reflexivity|].
    rewrite Ht', Ht, Hfi', Hio', Hcl', Hso'.
    unfold turns. cbn [repeat concat]. rewrite <- !app_assoc.
    repeat split; auto.
Qed.

Lemma count_gets_full_turns url k : count_gets (turns url k) = k.
Proof.
  rewrite <- (app_nil_r (turns url k)), count_gets_turns. cbn. lia.
Qed.

Lemma slept_full_turns url k : slept (turns url k) = 5 * Z.of_nat k.
Proof.
  rewrite <- (app_nil_r (turns url k)), slept_turns. cbn. lia.
Qed.

Lemma count_gets_app (a b : list event) :
  count_gets (a ++ b) = (count_gets a + count_gets b)%nat.
Proof.
  induction a as [|[| | |] a IH]; cbn; rewrite ?IH; reflexivity.
Qed.

Lemma slept_app (a b : list event) : slept (a ++ b) = slept a + slept b.
Proof.
  induction a as [|[| | |] a IH]; cbn; rewrite ?IH; lia.
Qed.

(** When the job is created and the next sixty status replies are all
    pending, [create_video] reports a timeout, after sixty requests and
    sixty sleeps of five seconds. *)
Lemma create_video_times_out (cfg : Config)
    (script_path style resolution content : string) (w : World)
    (post : Response) (rs : list Response) (rest : list (exn + Response)) :
  PIKA_API_KEY cfg <> "" ->
  files w !! script_path = Some content ->
  io_passes w = true ->
  http_replies (remote w) = (inr post :: map inr rs ++ rest)%list ->
  has_job_id post = true ->
  List.length rs = 60%nat ->
  Forall (fun r => is_pending r = true) rs ->
  exists w',
    create_video cfg script_path style resolution w =
      (Raise (Exception "Failed to create video: Video generation timed out"), w')
    /\ count_gets (trace w') = (count_gets (trace w) + 60)%nat
    /\ slept (trace w') = slept (trace w) + 300.
Proof.
  intros Hkey Hf Hio Hr Hpost Hlen Hp.
  unfold has_job_id in Hpost. apply andb_prop in Hpost.
  destruct Hpost as [Hok Hj].
  destruct (resp_json post) as [[| | | | | |d]|] eqn:Hjson; try discriminate.
  apply bool_decide_eq_true_1 in Hj. destruct Hj as [id Hid].
  unfold create_video, create_video_fuel.
  destruct (String.eqb_spec (PIKA_API_KEY cfg) ""); [contradiction|].
  unfold io_passes in Hio.
  unfold path_exists, read_file, requests_post, take_reply, response_json,
    mkdir, write_file, io_gate, print, log.
  unfold bind, ret, raise, try_except, lift.
  cbn -[poll strip prefix join split_char].
  rewrite Hf. cbn -[poll strip prefix join split_char].
  destruct (io_faults w) as [|[m|] fs] eqn:Hfaults; try discriminate;
    cbn -[poll strip prefix join split_char];
    rewrite ?Hf; cbn -[poll strip prefix join split_char];
    rewrite Hr; cbn -[poll strip prefix join split_char];
    rewrite Hok, Hjson; cbn -[poll strip prefix join split_char];
    rewrite Hid; cbn -[poll strip prefix join split_char].
  all: match goal with
       | |- context [poll enough_fuel ?u ?w0] =>
         destruct (while_poll_pending u rs enough_fuel
                     {| attempts := 0; video_url := PyNone |} w0 rest)
           as (w' & Hrun & Ht & _)
       end;
    [ reflexivity | exact Hp | rewrite Hlen; reflexivity
    | rewrite Hlen; unfold enough_fuel; lia | ].
  all: unfold poll; rewrite Hrun; cbn.
  all: eexists; split; [reflexivity|].
  all: rewrite Ht, Hlen; cbn -[turns];
    rewrite !count_gets_app, !slept_app, count_gets_full_turns,
      slept_full_turns; cbn; split; lia.
Qed.

(** Computations that never answer [None]. *)
Definition never_none {A} (c : M (option A)) : Prop :=
  forall w, fst (c w) <> Ret None.

Lemma never_none_raise {A} (e : exn) : never_none (@raise (option A) e).
Proof. intros w. discriminate. Qed.

Lemma never_none_ret {A} (a : A) : never_none (ret (Some a)).
Proof. intros w. discriminate. Qed.

Lemma never_none_bind {A B} (c : M A) (k : A -> M (option B)) :
  (forall a, never_none (k a)) -> never_none (bind c k).
Proof.
  intros Hk w. unfold bind. destruct (c w) as [[a|e] w']; [apply Hk | discriminate].
Qed.

Lemma never_none_bind_some {A B} (c : M (option A)) (k : option A -> M (option B)) :
  never_none c -> (forall a, never_none (k (Some a))) -> never_none (bind c k).
Proof.
  intros Hc Hk w. unfold bind. specialize (Hc w).
  destruct (c w) as [[[a|]|e] w']; cbn in *;
    [apply Hk | congruence | discriminate].
Qed.

Lemma never_none_try {A} (c : M (option A)) (h : exn -> M (option A)) :
  never_none c -> (forall e, never_none (h e)) -> never_none (try_except c h).
Proof.
  intros Hc Hh w. unfold try_except. specialize (Hc w).
  destruct (c w) as [[a|e] w']; cbn in *; [exact Hc | apply Hh].
Qed.

Lemma never_none_poll (url : string) (extra : nat) :
  never_none (poll (enough_fuel + extra) url).
Proof.
  intros w. unfold poll.
  apply (while_poll_ends url 60 (enough_fuel + extra)
           {| attempts := 0; video_url := PyNone |} w);
    [reflexivity | unfold enough_fuel; lia].
Qed.

(** [create_video] always gets past its poll loop. *)
Lemma never_none_create_video (cfg : Config) (extra : nat)
    (script_path style resolution : string) :
  never_none (create_video_fuel cfg (enough_fuel + extra)
                script_path style resolution).
Proof.
  unfold create_video_fuel.
  destruct (String.eqb (PIKA_API_KEY cfg) ""); [apply never_none_raise|].
  apply never_none_bind. intros ex.
  destruct (negb ex); [apply never_none_raise|].
  apply never_none_bind. intros content.
  apply never_none_try; [|intros e; apply never_none_raise].
  apply never_none_bind. intros _.
  apply never_none_bind. intros response.
  destruct (negb (resp_ok response)); [apply never_none_raise|].
  apply never_none_bind. intros data.
  apply never_none_bind. intros has_id.
  destruct (negb has_id); [apply never_none_raise|].
  apply never_none_bind. intros video_id.
  apply never_none_bind. intros _.
  apply never_none_bind. intros _.
  apply never_none_bind_some; [apply never_none_poll|]. intros s.
  destruct (negb (truthy (video_url s))); [apply never_none_raise|].
  apply never_none_bind. intros _.
  apply never_none_bind. intros video_resp.
  destruct (negb (resp_ok video_resp)); [apply never_none_raise|].
  apply never_none_bind. intros timestamp.
  apply never_none_bind. intros _.
  apply never_none_bind. intros _.
  apply never_none_bind. intros _.
  apply never_none_ret.
Qed.

(** C7.  The poll loop of [create_video] sends at most sixty status
    requests, sleeps five seconds after each request that does not end it,
    and always ends: more than sixty turns of fuel are never needed, here or
    in [create_video] as a whole.  When the job is created and sixty replies
    in a row are pending, [create_video] raises the timeout error after
    sixty requests and three hundred seconds of sleep. *)
Theorem poll_loop_is_bounded (cfg : Config) (url : string) (extra : nat)
    (w : World) :
  let r := poll (enough_fuel + extra) url w in
  (exists k last,
      trace (snd r) = (trace w ++ turns url k ++ last)%list
      /\ (last = [] \/ last = [EvGet url])
      /\ (k + List.length last <= 60)%nat)
  /\ fst r <> Ret None
  /\ r = poll enough_fuel url w
  /\ (forall script_path style resolution,
        fst (create_video_fuel cfg (enough_fuel + extra)
               script_path style resolution w) <> Ret None)
  /\ (forall script_path style resolution content post rs rest,
        PIKA_API_KEY cfg <> "" ->
        files w !! script_path = Some content ->
        io_passes w = true ->
        http_replies (remote w) = (inr post :: map inr rs ++ rest)%list ->
        has_job_id post = true ->
        List.length rs = 60%nat ->
        Forall (fun r => is_pending r = true) rs ->
        exists w',
          create_video cfg script_path style resolution w =
            (Raise (Exception "Failed to create video: Video generation timed out"), w')
          /\ count_gets (trace w') = (count_gets (trace w) + 60)%nat
          /\ slept (trace w') = slept (trace w) + 300).
Proof.
  cbv zeta. unfold poll.
  destruct (while_poll_ends url 60 (enough_fuel + extra)
              {| attempts := 0; video_url := PyNone |} w)
    as (Hbound & Hnone & Heq); [reflexivity | unfold enough_fuel; lia |].
  split; [exact Hbound|]. split; [exact Hnone|]. split; [exact Heq|].
  split.
  - intros script_path style resolution. apply never_none_create_video.
  - intros script_path style resolution content post rs rest.
    apply create_video_times_out.
Qed.

End poll_facts.

Module reference_service.
Import reference_world.

Definition cfg0 : Config :=
  {| OPENAI_API_KEY := "sk-test"; ELEVENLABS_API_KEY := "el-test";
     PIKA_API_KEY := "pk-test";
     openai_installed := true; elevenlabs_installed := true |}.

Definition json_reply (members : list (string * pyvalue)) : Response :=
  {| resp_ok := true; resp_status_code := 200; resp_text := "";
     resp_json := Some (PyDict members); resp_content := [] |}.

Definition job_created : Response := json_reply [("id", PyStr "job-1")].
Definition still_rendering : Response := json_reply [("status", PyStr "processing")].

(** A script on disk, and a rendering service that never finishes. *)
Definition world_rendering : World :=
  {| files := {[ "output/script.txt" := "A short script." ]};
     environ := ∅; stdout := []; stdin := [];
     io_faults := []; urandom := []; clock := clock0;
     remote := {| openai_replies := []; elevenlabs_replies := [];
                  runway_replies := [];
                  http_replies :=
                    inr job_created :: map inr (repeat still_rendering 60) |};
     trace := [] |}.

End reference_service.

Lemma poll_loop_is_bounded_witness :
  exists w',
    video_edit.create_video reference_service.cfg0
      "output/script.txt" "modern" "1080p" reference_service.world_rendering =
      (Raise (Exception "Failed to create video: Video generation timed out"), w')
    /\ video_edit.count_gets (trace w') = 60%nat
    /\ video_edit.slept (trace w') = 300.
Proof.
  destruct (poll_facts.poll_loop_is_bounded reference_service.cfg0
              "" O reference_service.world_rendering)
    as (_ & _ & _ & _ & Htimeout).
  apply (Htimeout "output/script.txt" "modern" "1080p" "A short script."
           reference_service.job_created
           (repeat reference_service.still_rendering 60) []).
  - discriminate.
  - reflexivity.
  - reflexivity.
  - reflexivity.
  - reflexivity.
  - reflexivity.
  - apply List.Forall_forall. intros r Hr. apply repeat_spec in Hr. now subst.
Defined.

(** * The pipeline driver *)

Module pipeline_claims.
Import pipeline.



Lemma traced_run (name : string) (f : list pyvalue -> Result pyvalue)
    (args : list pyvalue) (w : World) :
  traced name f args w = (f args, set_trace (trace w ++ [EvCall name args]) w).
Proof. reflexivity. Qed.


End pipeline_claims.

Module reference_pipeline.
Import pipeline.


End reference_pipeline.



(** * Failures in the stages *)

Module stage_facts.






End stage_facts.

(** * The HTTP facade *)

Module api_facts.
Import api_server.


Lemma serve_returned {A} (endpoint : M A) (rend : A -> HttpResponse)
    (w w' : World) (a : A) :
  endpoint w = (Ret a, w') -> serve endpoint rend w = (Ret (rend a), w').
Proof. intros H. unfold serve. now rewrite H. Qed.

Lemma serve_http_exception {A} (endpoint : M A) (rend : A -> HttpResponse)
    (w w' : World) (sc : Z) (d : string) :
  endpoint w = (Raise (HTTPException sc d), w') ->
  serve endpoint rend w =
    (Ret (JSONResponse sc (error_content d (isoformat_now (clock w')))), w').
Proof. intros H. unfold serve. rewrite H. reflexivity. Qed.


(** *** Validation failures, endpoint by endpoint *)








End api_facts.

(** * Error handling across the repository: claims *)

Module error_claims.
Import api_server.




Section WithLibraries.
Context {fernet : FernetLib} {json : JsonLib}.
Import chatgpt_login.


End WithLibraries.
End error_claims.

Module reference_requests.
Import api_server.



End reference_requests.




Module reference_outage.
Import reference_world.


End reference_outage.



(** * The models on concrete inputs *)

Module examples.

Definition b64 (s : string) : string :=
  string_of_list_byte (base64.b64encode (list_byte_of_string s)).

Definition unb64 (s : string) : Result string :=
  match base64.b64decode (list_byte_of_string s) with
  | Ret bs => Ret (string_of_list_byte bs)
  | Raise e => Raise e
  end.

(** The test vectors of RFC 4648. *)
Example b64_f : b64 "f" = "Zg==".
Proof. reflexivity. Qed.

Example b64_fo : b64 "fo" = "Zm8=".
Proof. reflexivity. Qed.

Example b64_foo : b64 "foo" = "Zm9v".
Proof. reflexivity. Qed.

Example b64_foobar : b64 "foobar" = "Zm9vYmFy".
Proof. reflexivity. Qed.

Example unb64_foobar : unb64 "Zm9vYmFy" = Ret "foobar".
Proof. reflexivity. Qed.

(** The lenient decoder skips what is not in the alphabet, stops at a
    complete pad sequence, and rejects leftover bits. *)
Example unb64_skips_blanks : unb64 "Zm9v YmFy" = Ret "foobar".
Proof. reflexivity. Qed.

Example unb64_stops_at_padding : unb64 "Zg==Zg==" = Ret "f".
Proof. reflexivity. Qed.

Example unb64_incomplete : unb64 "Zm9vY" = Raise BinasciiError.
Proof. reflexivity. Qed.

Example strip_blanks : strip "  a b  " = "a b".
Proof. reflexivity. Qed.

Example suffix_upper : lower (path_suffix "notes/Script.TXT") = ".txt".
Proof. reflexivity. Qed.

Example suffix_hidden : path_suffix ".bashrc" = "".
Proof. reflexivity. Qed.

Example extension_md : api_server.extension_allowed "readme.md" = true.
Proof. reflexivity. Qed.

Example extension_exe : api_server.extension_allowed "setup.exe" = false.
Proof. reflexivity. Qed.

Example tenths_half_even : api_server.format_tenths 262144 (1024 * 1024) = "0.2".
Proof. reflexivity. Qed.

Example tenths_kb : api_server.format_tenths 1536 1024 = "1.5".
Proof. reflexivity. Qed.

(** A blob that is not a token loads as [None]. *)
Example load_of_garbage :
  fst (@chatgpt_login.load_credentials reference.null_fernet reference.flat_json
         reference_world.manager0 reference_world.world1) = Ret None.
Proof. reflexivity. Qed.

(** With nothing stored and nothing in the environment, the credentials come
    from the console, and a yes saves them. *)
Example credentials_from_console :
  let w := set_stdin ["typed@example.com"; "typed"; "y"] reference_world.world0 in
  let r := @chatgpt_login.get_credentials reference.null_fernet
             reference.flat_json
             (chatgpt_login.Build_ChatGPTLogin reference_world.manager0) w in
  fst r = Ret (PyStr "typed@example.com", PyStr "typed")
  /\ is_Some (files (snd r) !! ".chatgpt_credentials").
Proof. cbv zeta. split; [reflexivity|]. vm_compute. eauto. Qed.

End examples.

(** * Further facts *)

Module further_facts.
Import chatgpt_login.
Section WithLibraries.
Context {fernet : FernetLib} {json : JsonLib}.

(** A manager built over an existing, readable key file uses the key in the
    file; two managers built over the same key file share their cipher. *)
Lemma init_reads_key_file (key_file k : string) (w : World) (c : cipher) :
  files w !! key_file = Some k ->
  io_passes w = true ->
  Fernet (list_byte_of_string k) = Ret c ->
  exists w',
    __init__ key_file w =
      (Ret {| key_file := key_file;
              credentials_file := ".chatgpt_credentials";
              key := list_byte_of_string k;
              cipher_suite := c |}, w')
    /\ files w' = files w.
Proof.
  intros Hf Hio Hc. unfold io_passes in Hio.
  unfold __init__, _load_or_generate_key, path_exists, read_file, io_gate,
    try_except, bind, ret, lift.
  rewrite Hf. cbn.
  destruct (io_faults w) as [|[m|] fs]; try discriminate; cbn;
    rewrite ?Hf; cbn; rewrite Hc; eexists; split; reflexivity.
Qed.

End WithLibraries.

(** [video_edit.run] takes a script path first: handed something that is not
    a file on disk, it raises before any request is sent. *)
Lemma video_edit_run_missing_script (cfg : Config)
    (script_file style resolution : string) (w : World) :
  PIKA_API_KEY cfg <> "" ->
  files w !! script_file = None ->
  video_edit.run cfg (Some script_file) style resolution w =
    (Raise (FileNotFoundError ("Script file not found: " +:+ script_file)), w).
Proof.
  intros Hkey Hf.
  unfold video_edit.run, video_edit.create_video, video_edit.create_video_fuel.
  destruct (String.eqb_spec (PIKA_API_KEY cfg) ""); [contradiction|].
  unfold path_exists, bind, ret, raise. now rewrite Hf.
Qed.

End further_facts.

(** * Key management and credential lookup: further properties *)

Module key_facts.
Import chatgpt_login.
Section WithLibraries.
Context {fernet : FernetLib} {json : JsonLib}.

(** The manager [__init__] returns for a given key. *)
Definition manager_with (key_file : string) (k : list byte) (c : cipher)
  : SecureCredentialManager :=
  {| key_file := key_file; credentials_file := ".chatgpt_credentials";
     key := k; cipher_suite := c |}.

(** No key file yet, and the file system takes the write: a key is drawn,
    stored and used. *)
Lemma init_generates (key_file : string) (w : World) :
  files w !! key_file = None ->
  io_passes w = true ->
  exists c w',
    Fernet (generate_key (next_draw w)) = Ret c
    /\ __init__ key_file w =
       (Ret (manager_with key_file (generate_key (next_draw w)) c), w')
    /\ files w' =
       <[key_file := string_of_list_byte (generate_key (next_draw w))]> (files w)
    /\ io_faults w' = tl (io_faults w)
    /\ environ w' = environ w.
Proof.
  intros Hf Hio. unfold io_passes in Hio.
  destruct (Fernet_generate_key (next_draw w)) as [c Hc].
  exists c. unfold next_draw in *.
  unfold __init__, _load_or_generate_key, path_exists, write_file, io_gate,
    draw_random, print, try_except, bind, ret, lift, manager_with.
  rewrite Hf. cbn.
  destruct (urandom w) as [|r rs]; cbn;
    destruct (io_faults w) as [|[m|] fs] eqn:Hfaults; try discriminate; cbn;
    rewrite Hc; eexists; (split; [reflexivity|]); (split; [reflexivity|]);
    cbn; rewrite ?Hfaults; auto.
Qed.

(** A key file that is there and readable is used as it is. *)
Lemma init_reads (key_file k : string) (w : World) :
  files w !! key_file = Some k ->
  io_passes w = true ->
  exists w',
    __init__ key_file w =
      (match Fernet (list_byte_of_string k) with
       | Ret c => Ret (manager_with key_file (list_byte_of_string k) c)
       | Raise e => Raise e
       end, w')
    /\ files w' = files w
    /\ io_faults w' = tl (io_faults w)
    /\ stdout w' = stdout w
    /\ urandom w' = urandom w.
Proof.
  intros Hf Hio. unfold io_passes in Hio.
  unfold __init__, _load_or_generate_key, path_exists, read_file, io_gate,
    try_except, bind, ret, lift, manager_with.
  rewrite Hf. cbn.
  destruct (io_faults w) as [|[m|] fs] eqn:Hfaults; try discriminate; cbn;
    rewrite ?Hf; cbn;
    destruct (Fernet (list_byte_of_string k)); eexists;
    (split; [reflexivity|]); cbn; rewrite ?Hfaults; auto.
Qed.

(** A key file that is there but cannot be read is replaced by a new key. *)
Lemma init_replaces_unreadable (key_file old : string) (w : World)
    (msg : string) (fs : list (option string)) :
  files w !! key_file = Some old ->
  io_faults w = Some msg :: fs ->
  hd None fs = None ->
  exists c w',
    __init__ key_file w =
      (Ret (manager_with key_file (generate_key (next_draw w)) c), w')
    /\ files w' =
       <[key_file := string_of_list_byte (generate_key (next_draw w))]> (files w)
    /\ stdout w' =
       (stdout w
        ++ ["Warning: Could not load existing key: " +:+ msg;
            "✅ Generated new encryption key: " +:+ key_file])%list.
Proof.
  intros Hf Hio Hfs.
  destruct (Fernet_generate_key (next_draw w)) as [c Hc].
  exists c. unfold next_draw in *.
  unfold __init__, _load_or_generate_key, path_exists, read_file, write_file,
    io_gate, draw_random, print, try_except, bind, ret, lift, manager_with.
  rewrite Hf. cbn. rewrite Hio. cbn.
  destruct (urandom w) as [|r rs]; cbn;
    destruct fs as [|[m|] fs']; try discriminate; cbn;
    rewrite Hc; eexists; (split; [reflexivity|]); cbn;
    rewrite <- ?app_assoc; auto.
Qed.

End WithLibraries.
End key_facts.

(** A cipher that insists on a key of the right size. *)
Module strict_reference.

Definition key_size : nat := 44.

Definition strict_Fernet (k : list byte) : Result (list byte) :=
  if Nat.eqb (List.length k) key_size then Ret k
  else Raise (ValueError "Fernet key must be 32 url-safe base64-encoded bytes.").

(** Forty-four octets made from a draw of any size. *)
Definition strict_generate_key (r : list byte) : list byte :=
  firstn key_size (r ++ repeat "A"%byte key_size).

Lemma strict_generate_key_length (r : list byte) :
  List.length (strict_generate_key r) = key_size.
Proof.
  unfold strict_generate_key.
  rewrite length_firstn, length_app, repeat_length. unfold key_size. lia.
Qed.

Lemma strict_Fernet_generate_key (r : list byte) :
  exists c, strict_Fernet (strict_generate_key r) = Ret c.
Proof.
  unfold strict_Fernet. rewrite strict_generate_key_length, Nat.eqb_refl. eauto.
Qed.

Definition strict_fernet : FernetLib :=
  {| cipher := list byte;
     Fernet := strict_Fernet;
     generate_key := strict_generate_key;
     encrypt := reference.null_encrypt;
     decrypt := reference.null_decrypt;
     Fernet_generate_key := strict_Fernet_generate_key;
     decrypt_encrypt := reference.null_decrypt_encrypt |}.

End strict_reference.

Module key_claims.
Import chatgpt_login key_facts.
Section WithLibraries.
Context {fernet : FernetLib} {json : JsonLib}.

Lemma io_calm_S (n : nat) (w : World) :
  io_calm (S n) w = true ->
  io_passes w = true
  /\ forall w', io_faults w' = tl (io_faults w) -> io_calm n w' = true.
Proof.
  unfold io_calm, io_passes. destruct (io_faults w) as [|[m|] fs]; cbn;
    intros H; try discriminate; split; try reflexivity; intros w' ->; cbn.
  - now destruct n.
  - exact H.
Qed.

(** X1.  A key generated by the first manager is stored in the key file, and
    a manager built later over that file works with the same key and the
    same cipher; building it changes no file. *)
Theorem generated_key_is_reused (key_file : string) (w : World) :
  files w !! key_file = None ->
  io_calm 2 w = true ->
  exists m1 w1 m2 w2,
    __init__ key_file w = (Ret m1, w1)
    /\ __init__ key_file w1 = (Ret m2, w2)
    /\ key m1 = generate_key (next_draw w)
    /\ m2 = m1
    /\ files w1 !! key_file = Some (string_of_list_byte (key m1))
    /\ files w2 = files w1.
Proof.
  intros Hf Hio.
  destruct (io_calm_S _ _ Hio) as [Hio0 Hio1].
  destruct (init_generates key_file w Hf Hio0) as (c & w1 & Hc & H1 & Hf1 & Hq1 & _).
  specialize (Hio1 w1 Hq1). destruct (io_calm_S _ _ Hio1) as [Hio1' _].
  assert (Hk : files w1 !! key_file =
               Some (string_of_list_byte (generate_key (next_draw w))))
    by (rewrite Hf1; apply lookup_insert_eq).
  destruct (init_reads key_file _ w1 Hk Hio1') as (w2 & H2 & Hf2 & _).
  rewrite list_byte_of_string_of_list_byte, Hc in H2.
  eexists _, w1, _, w2. repeat split; eauto.
Qed.

(** X2.  When the key file is there but cannot be read, the manager draws a
    new key and writes it over the old one: from then on the file holds the
    new key, whatever was encrypted under the old one; no other file
    changes. *)
Theorem unreadable_key_is_replaced (key_file old : string) (w : World)
    (msg : string) (fs : list (option string)) :
  files w !! key_file = Some old ->
  io_faults w = Some msg :: fs ->
  hd None fs = None ->
  exists m1 w1,
    __init__ key_file w = (Ret m1, w1)
    /\ key m1 = generate_key (next_draw w)
    /\ files w1 !! key_file = Some (string_of_list_byte (generate_key (next_draw w)))
    /\ (forall k, k <> key_file -> files w1 !! k = files w !! k)
    /\ stdout w1 =
       (stdout w
        ++ ["Warning: Could not load existing key: " +:+ msg;
            "✅ Generated new encryption key: " +:+ key_file])%list.
Proof.
  intros Hf Hio Hfs.
  destruct (init_replaces_unreadable key_file old w msg fs Hf Hio Hfs)
    as (c & w1 & H1 & Hf1 & Hout).
  eexists _, w1. split; [exact H1|]. split; [reflexivity|].
  rewrite Hf1. split; [apply lookup_insert_eq|].
  split; [|exact Hout].
  intros k Hk. now apply lookup_insert_ne.
Qed.


(** X4.  A readable key file whose content the cipher rejects makes the
    constructor raise what [Fernet] raised; no new key is generated and the
    files stay as they are. *)
Theorem rejected_key_fails_construction (key_file k : string) (w : World)
    (e : exn) :
  files w !! key_file = Some k ->
  io_passes w = true ->
  Fernet (list_byte_of_string k) = Raise e ->
  exists w1,
    __init__ key_file w = (Raise e, w1)
    /\ files w1 = files w
    /\ urandom w1 = urandom w
    /\ stdout w1 = stdout w.
Proof.
  intros Hf Hio He.
  destruct (init_reads key_file k w Hf Hio) as (w1 & H1 & Hf1 & _ & Ho & Hu).
  rewrite He in H1. eauto.
Qed.

End WithLibraries.
End key_claims.

Module lookup_claims.
Import chatgpt_login store_facts key_facts key_claims.
Section WithLibraries.
Context {fernet : FernetLib} {json : JsonLib}.

(** A blob just written loads as the record that was saved. *)
Lemma load_outcome_credential_blob (c : cipher) (iv : list byte) (t : Z)
    (email password : string) :
  load_outcome c (credential_blob c iv t (credential_record email password t)) =
    Some (credential_record email password t).
Proof.
  unfold load_outcome. rewrite strip_credential_blob.
  unfold credential_record.
  rewrite open_blob_credential_blob by apply credential_record_flat.
  reflexivity.
Qed.

(** X5.  Of two saves in a row the second one wins: what loads afterwards is
    the second email and password. *)
Theorem last_save_wins (self : SecureCredentialManager)
    (email1 password1 email2 password2 : string) (w : World) :
  io_calm 3 w = true ->
  exists w1 w2 record,
    save_credentials self email1 password1 w = (Ret true, w1)
    /\ save_credentials self email2 password2 w1 = (Ret true, w2)
    /\ fst (load_credentials self w2) = Ret (Some record)
    /\ getitem record "email" = Ret (PyStr email2)
    /\ getitem record "password" = Ret (PyStr password2).
Proof.
  intros Hio.
  destruct (io_calm_S _ _ Hio) as [Hio0 Hio1].
  destruct (save_credentials_ok self email1 password1 w Hio0)
    as (w1 & Hs1 & Hf1 & Hq1).
  specialize (Hio1 w1 Hq1). destruct (io_calm_S _ _ Hio1) as [Hio1' Hio2].
  destruct (save_credentials_ok self email2 password2 w1 Hio1')
    as (w2 & Hs2 & Hf2 & Hq2).
  specialize (Hio2 w2 Hq2). destruct (io_calm_S _ _ Hio2) as [Hio2' _].
  exists w1, w2, (credential_record email2 password2 (time_time (clock w1))).
  split; [exact Hs1|]. split; [exact Hs2|]. split; [|split; reflexivity].
  rewrite load_credentials_value, Hf2, lookup_insert_eq, Hio2'.
  now rewrite load_outcome_credential_blob.
Qed.


(** A loaded record is a dict with an email, hence true as a condition. *)
Lemma load_outcome_truthy (c : cipher) (content : string) (record : pyvalue) :
  load_outcome c content = Some record -> truthy record = true.
Proof.
  unfold load_outcome.
  destruct (open_blob c (strip content)) as [v|e]; [|discriminate].
  destruct (getitem v "email") as [x|e] eqn:Hx; [|discriminate].
  intros [= <-]. destruct v as [| | | | | |d]; try discriminate.
  destruct d; [discriminate | reflexivity].
Qed.

(** X7.  Unless both environment variables are set and non-empty, stored
    credentials are used: the email and the password of the stored record
    are returned, nothing is read from the console and no file changes.
    One variable alone does not count. *)
Theorem stored_credentials_second (self : ChatGPTLogin) (w : World)
    (content : string) (record email password : pyvalue) :
  env_set (environ w !! "CHATGPT_EMAIL")
    && env_set (environ w !! "CHATGPT_PASSWORD") = false ->
  files w !! credentials_file (credential_manager self) = Some content ->
  io_passes w = true ->
  load_outcome (cipher_suite (credential_manager self)) content = Some record ->
  getitem record "email" = Ret email ->
  getitem record "password" = Ret password ->
  exists w',
    get_credentials self w = (Ret (email, password), w')
    /\ stdin w' = stdin w
    /\ files w' = files w.
Proof.
  intros Henv Hf Hio Hload He Hp.
  pose proof (load_outcome_truthy _ _ _ Hload) as Ht.
  unfold load_outcome in Hload.
  destruct (open_blob (cipher_suite (credential_manager self)) (strip content))
    as [v|e] eqn:Hopen; [|discriminate].
  assert (v = record) as ->.
  { destruct (getitem v "email"); [now injection Hload | discriminate]. }
  unfold io_passes in Hio.
  unfold get_credentials, getenv.
  unfold bind at 1 2. unfold ret at 1 2. rewrite Henv.
  unfold bind at 1.
  unfold load_credentials, path_exists, read_file, io_gate, print,
    try_except, bind, ret, lift.
  rewrite Hf. cbn -[_decrypt_credentials strip getitem].
  destruct (io_faults w) as [|[m|] fs]; try discriminate;
    cbn -[_decrypt_credentials strip getitem]; rewrite ?Hf;
    cbn -[_decrypt_credentials strip getitem];
    rewrite _decrypt_credentials_open_blob, Hopen;
    cbn -[strip getitem]; rewrite He; cbn -[strip getitem]; rewrite Ht;
    cbn -[strip getitem]; rewrite He, Hp; cbn;
    eexists; (split; [reflexivity|]); cbn; auto.
Qed.

End WithLibraries.
End lookup_claims.

Module console_claims.
Import chatgpt_login store_facts key_facts key_claims lookup_claims.
Section WithLibraries.
Context {fernet : FernetLib} {json : JsonLib}.





End WithLibraries.
End console_claims.

(** * config.py *)

Module config.

(** [os.getenv(name, "")] at import time. *)
Definition getenv_or_empty (env : gmap string string) (name : string) : string :=
  default "" (env !! name).

(** The module globals of [config.py] that the stages import, for a given
    environment; whether the client libraries import is told apart. *)
Definition load (env : gmap string string) (openai elevenlabs : bool) : Config :=
  {| OPENAI_API_KEY := getenv_or_empty env "OPENAI_API_KEY";
     ELEVENLABS_API_KEY := getenv_or_empty env "ELEVENLABS_API_KEY";
     PIKA_API_KEY := getenv_or_empty env "PIKA_API_KEY";
     openai_installed := openai;
     elevenlabs_installed := elevenlabs |}.

(** [if not KEY: missing_keys.append(name)] *)
Definition missing (key name : string) : list string :=
  if String.eqb key "" then [name] else [].

Definition missing_keys (cfg : Config) : list string :=
  missing (OPENAI_API_KEY cfg) "OPENAI_API_KEY"
  ++ missing (ELEVENLABS_API_KEY cfg) "ELEVENLABS_API_KEY"
  ++ missing (PIKA_API_KEY cfg) "PIKA_API_KEY".

Definition validate_api_keys (cfg : Config) : M bool :=
  let missing_keys := missing_keys cfg in
  match missing_keys with
  | _ :: _ =>
    print ("Warning: Missing API keys: " +:+ join ", " missing_keys) ;;;
    print "Some features may not work without these keys." ;;;
    ret false
  | [] => ret true
  end.

End config.

Module guard_facts.

(** A body wrapped in [except Exception as e: raise Exception(...)] returns
    or raises a plain [Exception]. *)
Lemma wrapped_exception {A} (c : M A) (f : exn -> string) (w : World) :
  (exists a w', try_except c (fun e => raise (Exception (f e))) w = (Ret a, w'))
  \/ (exists e w',
        try_except c (fun e => raise (Exception (f e))) w =
          (Raise (Exception (f e)), w')).
Proof.
  unfold try_except, raise. destruct (c w) as [[a|e] w']; eauto.
Qed.

Lemma generate_script_ValueError (cfg : Config) (topic length style : string)
    (w : World) :
  (exists msg w',
      script_gen.generate_script cfg topic length style w
        = (Raise (ValueError msg), w'))
  <-> OPENAI_API_KEY cfg = "".
Proof.
  unfold script_gen.generate_script.
  destruct (String.eqb_spec (OPENAI_API_KEY cfg) "") as [Hk|Hk].
  - split; [auto|]. intros _. unfold raise. eauto.
  - split; [|contradiction]. intros (msg & w' & H). exfalso.
    destruct (negb (openai_installed cfg)); [discriminate H|].
    match type of H with
    | try_except ?c (fun e => raise (Exception (@?f e))) _ = _ =>
      destruct (wrapped_exception c f w) as [(a & w1 & H1) | (e & w1 & H1)]
    end; rewrite H1 in H; discriminate H.
Qed.

Lemma generate_voice_ValueError (cfg : Config) (text voice_type speed : string)
    (w : World) :
  (exists msg w',
      voice_gen.generate_voice cfg text voice_type speed w
        = (Raise (ValueError msg), w'))
  <-> ELEVENLABS_API_KEY cfg = "".
Proof.
  unfold voice_gen.generate_voice.
  destruct (String.eqb_spec (ELEVENLABS_API_KEY cfg) "") as [Hk|Hk].
  - split; [auto|]. intros _. unfold raise. eauto.
  - split; [|contradiction]. intros (msg & w' & H). exfalso.
    destruct (negb (elevenlabs_installed cfg)); [discriminate H|].
    match type of H with
    | try_except ?c (fun e => raise (Exception (@?f e))) _ = _ =>
      destruct (wrapped_exception c f w) as [(a & w1 & H1) | (e & w1 & H1)]
    end; rewrite H1 in H; discriminate H.
Qed.

Lemma create_video_ValueError (cfg : Config)
    (script_path style resolution : string) (w : World) :
  (exists msg w',
      video_edit.create_video cfg script_path style resolution w
        = (Raise (ValueError msg), w'))
  <-> PIKA_API_KEY cfg = "".
Proof.
  unfold video_edit.create_video, video_edit.create_video_fuel.
  destruct (String.eqb_spec (PIKA_API_KEY cfg) "") as [Hk|Hk].
  - split; [auto|]. intros _. unfold bind, raise. eauto.
  - split; [|contradiction]. intros (msg & w' & H). exfalso.
    revert H. unfold bind at 1 2. unfold path_exists.
    destruct (negb (bool_decide (is_Some (files w !! script_path))));
      [discriminate|].
    unfold bind at 1.
    match goal with
    | |- context [try_except ?c (fun e => raise (Exception (@?f e))) w] =>
      destruct (wrapped_exception c f w) as [(a & w1 & H1) | (e & w1 & H1)];
        rewrite H1
    end; [|discriminate].
    match goal with
    | |- context [try_except ?c (fun e => raise (Exception (@?f e))) w1] =>
      destruct (wrapped_exception c f w1) as [(b & w2 & H2) | (e & w2 & H2)];
        rewrite H2
    end; [|discriminate].
    destruct b; discriminate.
Qed.

End guard_facts.

Module config_claims.
Import config.

Lemma missing_nil (key name : string) : missing key name = [] <-> key <> "".
Proof.
  unfold missing. destruct (String.eqb_spec key ""); split; congruence.
Qed.

(** X10.  [validate_api_keys] returns [True] exactly when the three API keys
    are all non-empty, and then prints nothing; otherwise it returns
    [False] after a warning that names the missing keys, in the order
    OpenAI, ElevenLabs, Pika. *)
Theorem validate_api_keys_reports_missing (cfg : Config) (w : World) :
  (fst (validate_api_keys cfg w) = Ret true
   <-> OPENAI_API_KEY cfg <> "" /\ ELEVENLABS_API_KEY cfg <> ""
       /\ PIKA_API_KEY cfg <> "")
  /\ (fst (validate_api_keys cfg w) = Ret true ->
      snd (validate_api_keys cfg w) = w)
  /\ (fst (validate_api_keys cfg w) <> Ret true ->
      validate_api_keys cfg w =
        (Ret false,
         set_stdout
           (stdout w
            ++ ["Warning: Missing API keys: " +:+ join ", " (missing_keys cfg);
                "Some features may not work without these keys."]) w))
  /\ (forall name,
        In name (missing_keys cfg) <->
        (name = "OPENAI_API_KEY" /\ OPENAI_API_KEY cfg = "")
        \/ (name = "ELEVENLABS_API_KEY" /\ ELEVENLABS_API_KEY cfg = "")
        \/ (name = "PIKA_API_KEY" /\ PIKA_API_KEY cfg = "")).
Proof.
  unfold validate_api_keys, missing_keys, missing, print, bind, ret.
  destruct (String.eqb_spec (OPENAI_API_KEY cfg) "") as [H1|H1];
    destruct (String.eqb_spec (ELEVENLABS_API_KEY cfg) "") as [H2|H2];
    destruct (String.eqb_spec (PIKA_API_KEY cfg) "") as [H3|H3];
    cbn -[join]; rewrite <- ?app_assoc; cbn -[join];
    (split; [split; [try discriminate; tauto | try tauto; intros (?&?&?); congruence] |]);
    (split; [try discriminate; reflexivity |]);
    (split; [try reflexivity; intros Hc; now contradiction Hc |]);
    intros name; cbn; intuition congruence.
Qed.

(** X11.  Each stage function checks its API key before anything else: it
    raises [ValueError] exactly when its key is empty, and then nothing has
    been sent, written or printed. *)
Theorem stages_check_their_key_first (cfg : Config) (w : World) :
  (forall topic length style,
      ((exists msg w',
           script_gen.generate_script cfg topic length style w
             = (Raise (ValueError msg), w'))
       <-> OPENAI_API_KEY cfg = "")
      /\ (OPENAI_API_KEY cfg = "" ->
          snd (script_gen.generate_script cfg topic length style w) = w))
  /\ (forall text voice_type speed,
        ((exists msg w',
             voice_gen.generate_voice cfg text voice_type speed w
               = (Raise (ValueError msg), w'))
         <-> ELEVENLABS_API_KEY cfg = "")
        /\ (ELEVENLABS_API_KEY cfg = "" ->
            snd (voice_gen.generate_voice cfg text voice_type speed w) = w))
  /\ (forall script_path style resolution,
        ((exists msg w',
             video_edit.create_video cfg script_path style resolution w
               = (Raise (ValueError msg), w'))
         <-> PIKA_API_KEY cfg = "")
        /\ (PIKA_API_KEY cfg = "" ->
            snd (video_edit.create_video cfg script_path style resolution w) = w)).
Proof.
  split; [|split].
  - intros topic length style.
    split; [apply guard_facts.generate_script_ValueError|].
    intros Hk. unfold script_gen.generate_script. now rewrite Hk.
  - intros text voice_type speed.
    split; [apply guard_facts.generate_voice_ValueError|].
    intros Hk. unfold voice_gen.generate_voice. now rewrite Hk.
  - intros script_path style resolution.
    split; [apply guard_facts.create_video_ValueError|].
    intros Hk. unfold video_edit.create_video, video_edit.create_video_fuel.
    now rewrite Hk.
Qed.

End config_claims.

(** * File names made from user text *)

Module filename_facts.

(** Every character of a string satisfies [p]. *)
Fixpoint string_forall (p : ascii -> bool) (s : string) : bool :=
  match s with
  | EmptyString => true
  | String c s' => p c && string_forall p s'
  end.


(** The part of the file name [generate_script] makes of the topic. *)
Definition safe_topic (topic : string) : string :=
  prefix 30 (replace_char " " "_" (rstrip (filter_chars script_gen.safe_char topic))).

(** The part of the file name [generate_voice] makes of the text. *)
Definition safe_text (text : string) : string :=
  prefix 20
    (replace_char " " "_"
       (rstrip (filter_chars script_gen.safe_char (prefix 30 text)))).

Lemma string_forall_impl (p q : ascii -> bool) (s : string) :
  (forall c, p c = true -> q c = true) ->
  string_forall p s = true -> string_forall q s = true.
Proof.
  intros Hpq. induction s as [|c s IH]; [reflexivity|]. cbn.
  intros H. apply andb_prop in H. destruct H as [Hc Hs].
  now rewrite (Hpq c Hc), IH.
Qed.










End filename_facts.

(** * The stages when the services answer *)

Module stage_success.
Import filename_facts key_claims.

(** What [generate_script] writes: four header lines, a rule, and the script
    without blanks around it. *)
Definition script_text (topic length style generated content : string) : string :=
  "# Script: " +:+ topic +:+ script_gen.nl
  +:+ "# Generated: " +:+ generated +:+ script_gen.nl
  +:+ "# Length: " +:+ fst (script_gen.length_params length) +:+ script_gen.nl
  +:+ "# Style: " +:+ style +:+ script_gen.nl
  +:+ script_gen.repeat_string "=" 50 +:+ script_gen.nl +:+ script_gen.nl
  +:+ strip content.

Definition script_path (topic length timestamp : string) : string :=
  path_join output_dir
    ("script_" +:+ safe_topic topic +:+ "_" +:+ length +:+ "_" +:+ timestamp
     +:+ ".txt").

Definition voice_path (text voice_type timestamp : string) : string :=
  path_join output_dir
    ("voice_" +:+ safe_text text +:+ "_" +:+ voice_type +:+ "_" +:+ timestamp
     +:+ ".mp3").

Lemma io_calm_3 (w : World) :
  io_calm 3 w = true ->
  exists fs, (io_faults w = None :: None :: None :: fs)
             \/ (io_faults w = [None; None] /\ fs = [])
             \/ (io_faults w = [None] /\ fs = [])
             \/ (io_faults w = [] /\ fs = []).
Proof.
  unfold io_calm.
  destruct (io_faults w) as [|[m|] [|[m'|] [|[m''|] fs]]]; cbn;
    intros H; try discriminate; eauto 10.
Qed.







(** X14.  [generate_voice_from_file] looks at the script before it calls
    anything: a missing file raises [FileNotFoundError], an unreadable one
    raises an exception that tells why, and in both cases no request is
    made and no file changes. *)
Theorem voice_needs_a_readable_script (cfg : Config) (script_file : string)
    (w : World) :
  (files w !! script_file = None ->
   voice_gen.generate_voice_from_file cfg script_file w =
     (Raise (FileNotFoundError ("Script file not found: " +:+ script_file)), w))
  /\ (forall content msg fs,
        files w !! script_file = Some content ->
        io_faults w = Some msg :: fs ->
        exists w',
          voice_gen.generate_voice_from_file cfg script_file w =
            (Raise (Exception ("Failed to read script file: " +:+ msg)), w')
          /\ trace w' = trace w
          /\ remote w' = remote w
          /\ files w' = files w).
Proof.
  unfold voice_gen.generate_voice_from_file, path_exists, read_file, io_gate,
    try_except, bind, ret, raise.
  split.
  - intros Hf. now rewrite Hf.
  - intros content msg fs Hf Hio. rewrite Hf. cbn. rewrite Hio. cbn.
    eexists. split; [reflexivity|]. cbn. auto.
Qed.

(** X15.  [animation_gen.run] needs RUNWAYML_API_SECRET: without it the
    client cannot be built and the function raises before any request.
    With it, and a task that succeeds, the first output is printed and
    returned; a task that succeeds with no output raises [IndexError]. *)
Theorem animation_returns_the_first_output (prompt : pyvalue) (w : World) :
  (environ w !! "RUNWAYML_API_SECRET" = None ->
   animation_gen.run prompt w =
     (Raise (Exception "The api_key client option must be set"), w))
  /\ (forall key task first others rest,
        environ w !! "RUNWAYML_API_SECRET" = Some key ->
        runway_replies (remote w) = inr task :: inr (first :: others) :: rest ->
        exists w',
          animation_gen.run prompt w = (Ret (PyStr first), w')
          /\ stdout w' = (stdout w ++ ["Video ready: " +:+ first])%list
          /\ runway_replies (remote w') = rest)
  /\ (forall key task rest,
        environ w !! "RUNWAYML_API_SECRET" = Some key ->
        runway_replies (remote w) = inr task :: inr [] :: rest ->
        exists w',
          animation_gen.run prompt w =
            (Raise (IndexError "list index out of range"), w')
          /\ stdout w' = stdout w).
Proof.
  unfold animation_gen.run, animation_gen.try_except_TaskFailedError,
    runway_create, runway_wait_for_task_output, take_reply, log, getenv, print.
  unfold bind, ret, raise.
  split; [|split].
  - intros Hk. cbn. now rewrite Hk.
  - intros key task first others rest Hk Hr. cbn. rewrite Hk. cbn.
    rewrite Hr. cbn. eexists. split; [reflexivity|]. cbn. auto.
  - intros key task rest Hk Hr. cbn. rewrite Hk. cbn.
    rewrite Hr. cbn. eexists. split; [reflexivity|]. cbn. auto.
Qed.





End stage_success.

(** * The poll loop when the job ends *)

Module render_facts.
Import video_edit poll_facts.

(** The URL a status reply announces, when it says the job is completed. *)
Definition completed_with (r : Response) : option pyvalue :=
  if resp_ok r then
    match resp_json r with
    | Some (PyDict d) =>
      if eq_str (default PyNone (assoc "status" d)) "completed"
      then Some (default PyNone (assoc "video" d))
      else None
    | _ => None
    end
  else None.

(** The message of the exception a status reply makes the loop raise. *)
Definition poll_failure (r : Response) : option string :=
  if negb (resp_ok r) then
    Some ("Failed to check video status: " +:+ resp_text r)
  else
    match resp_json r with
    | Some (PyDict d) =>
      if eq_str (default PyNone (assoc "status" d)) "completed" then
        if truthy (default PyNone (assoc "video" d)) then None
        else Some "Video completed but no URL provided"
      else if eq_str (default PyNone (assoc "status" d)) "failed" then
        Some "Video generation failed"
      else None
    | _ => None
    end.

Lemma poll_body_completed (url : string) (s : poll_state) (w : World)
    (resp : Response) (u : pyvalue) (rest : list (exn + Response)) :
  http_replies (remote w) = inr resp :: rest ->
  completed_with resp = Some u ->
  truthy u = true ->
  exists w',
    poll_body url s w =
      (Ret ({| attempts := attempts s; video_url := u |}, true), w')
    /\ trace w' = (trace w ++ [EvGet url])%list
    /\ http_replies (remote w') = rest
    /\ files w' = files w /\ io_faults w' = io_faults w
    /\ clock w' = clock w.
Proof.
  intros Hr Hc Hu. unfold completed_with in Hc.
  destruct (resp_ok resp) eqn:Hok; [|discriminate].
  destruct (resp_json resp) as [[| | | | | |d]|] eqn:Hjson; try discriminate.
  destruct (eq_str (default PyNone (assoc "status" d)) "completed") eqn:Hs;
    [|discriminate].
  injection Hc as <-.
  unfold poll_body, requests_get, take_reply, response_json, sleep, log, print,
    bind, ret, raise, lift.
  cbn. rewrite Hr. cbn. rewrite Hok, Hjson. cbn. rewrite Hs. cbn. rewrite Hu.
  eexists. split; [reflexivity|]. cbn. repeat split; reflexivity.
Qed.

Lemma poll_body_failure (url : string) (s : poll_state) (w : World)
    (resp : Response) (msg : string) (rest : list (exn + Response)) :
  http_replies (remote w) = inr resp :: rest ->
  poll_failure resp = Some msg ->
  exists w',
    poll_body url s w = (Raise (Exception msg), w')
    /\ trace w' = (trace w ++ [EvGet url])%list
    /\ files w' = files w
    /\ stdout w' = stdout w.
Proof.
  intros Hr Hc. unfold poll_failure in Hc.
  unfold poll_body, requests_get, take_reply, response_json, sleep, log, print,
    bind, ret, raise, lift.
  cbn. rewrite Hr. cbn.
  destruct (resp_ok resp) eqn:Hok; cbn in Hc |- *.
  - destruct (resp_json resp) as [[| | | | | |d]|] eqn:Hjson; try discriminate.
    cbn.
    destruct (eq_str (default PyNone (assoc "status" d)) "completed") eqn:Hs.
    + destruct (truthy (default PyNone (assoc "video" d))) eqn:Hu;
        [discriminate|].
      injection Hc as <-. cbn.
      eexists. split; [reflexivity|]. cbn. repeat split; reflexivity.
    + destruct (eq_str (default PyNone (assoc "status" d)) "failed") eqn:Hf;
        [|discriminate].
      injection Hc as <-. cbn.
      eexists. split; [reflexivity|]. cbn. repeat split; reflexivity.
  - injection Hc as <-.
    eexists. split; [reflexivity|]. cbn. repeat split; reflexivity.
Qed.

(** Pending replies, fewer than the attempts left, are consumed one per
    turn; the loop then goes on from the world they leave. *)
Lemma while_poll_pending_prefix (url : string) :
  forall (rs : list Response) (fuel : nat) (s : poll_state) (w : World)
         (rest : list (exn + Response)),
    http_replies (remote w) = (map inr rs ++ rest)%list ->
    Forall (fun r => is_pending r = true) rs ->
    attempts s + Z.of_nat (List.length rs) <= max_attempts ->
    exists w' s',
      while_loop (List.length rs + fuel) poll_cond (poll_body url) s w =
        while_loop fuel poll_cond (poll_body url) s' w'
      /\ attempts s' = attempts s + Z.of_nat (List.length rs)
      /\ video_url s' = video_url s
      /\ trace w' = (trace w ++ turns url (List.length rs))%list
      /\ http_replies (remote w') = rest
      /\ files w' = files w /\ io_faults w' = io_faults w
      /\ clock w' = clock w /\ stdout w' = stdout w.
Proof.
  induction rs as [|r rs IH]; intros fuel s w rest Hr Hp Hs.
  - exists w, s. cbn in *. unfold turns. cbn. rewrite app_nil_r.
    repeat split; auto. lia.
  - cbn [List.length Nat.add]. rewrite while_loop_step.
    unfold poll_cond, max_attempts in *. cbn [List.length] in Hs.
    replace (attempts s <? 60) with true by (symmetry; apply Z.ltb_lt; lia).
    inversion Hp as [|? ? Hr1 Hrs]; subst.
    destruct (poll_body_pending url s w r (map inr rs ++ rest)%list Hr Hr1)
      as (w1 & -> & Ht & Hh & Hfi & Hio & Hcl & Hso).
    cbn [fst snd].
    destruct (IH fuel {| attempts := attempts s + 1; video_url := video_url s |}
                w1 rest Hh Hrs) as (w' & s' & -> & Ha & Hv & Ht' & Hh' & Hfi'
                                    & Hio' & Hcl' & Hso').
    { cbn. lia. }
    exists w', s'. split; [reflexivity|].
    rewrite Ha, Hv, Ht', Ht, Hfi', Hio', Hcl', Hso'. cbn [attempts video_url].
    unfold turns. cbn [repeat concat]. rewrite <- !app_assoc.
    repeat split; auto. lia.
Qed.

Lemma poll_completes (url : string) (w : World) (rs : list Response)
    (done : Response) (u : pyvalue) (rest : list (exn + Response)) :
  http_replies (remote w) = (map inr rs ++ inr done :: rest)%list ->
  Forall (fun r => is_pending r = true) rs ->
  (List.length rs < 60)%nat ->
  completed_with done = Some u ->
  truthy u = true ->
  exists w',
    poll enough_fuel url w =
      (Ret (Some {| attempts := Z.of_nat (List.length rs); video_url := u |}), w')
    /\ trace w' = (trace w ++ turns url (List.length rs) ++ [EvGet url])%list
    /\ http_replies (remote w') = rest
    /\ files w' = files w /\ io_faults w' = io_faults w
    /\ clock w' = clock w.
Proof.
  intros Hr Hp Hlen Hc Hu. unfold poll.
  replace enough_fuel
    with (List.length rs + Datatypes.S (60 - List.length rs))%nat
    by (unfold enough_fuel; lia).
  destruct (while_poll_pending_prefix url rs (Datatypes.S (60 - List.length rs))
              {| attempts := 0; video_url := PyNone |} w _ Hr Hp)
    as (w1 & s1 & -> & Ha & Hv & Ht & Hh & Hfi & Hio & Hcl & Hso).
  { unfold max_attempts. cbn. lia. }
  rewrite while_loop_step. unfold poll_cond, max_attempts.
  cbn [attempts] in Ha.
  replace (attempts s1 <? 60) with true by (symmetry; apply Z.ltb_lt; lia).
  destruct (poll_body_completed url s1 w1 done u rest Hh Hc Hu)
    as (w' & -> & Ht' & Hh' & Hfi' & Hio' & Hcl').
  cbn [fst snd]. exists w'. rewrite Ha. split; [reflexivity|].
  rewrite Ht', Ht, Hfi', Hio', Hcl', <- app_assoc. repeat split; auto.
Qed.

Lemma poll_fails (url : string) (w : World) (rs : list Response)
    (bad : Response) (msg : string) (rest : list (exn + Response)) :
  http_replies (remote w) = (map inr rs ++ inr bad :: rest)%list ->
  Forall (fun r => is_pending r = true) rs ->
  (List.length rs < 60)%nat ->
  poll_failure bad = Some msg ->
  exists w',
    poll enough_fuel url w = (Raise (Exception msg), w')
    /\ trace w' = (trace w ++ turns url (List.length rs) ++ [EvGet url])%list
    /\ files w' = files w.
Proof.
  intros Hr Hp Hlen Hc. unfold poll.
  replace enough_fuel
    with (List.length rs + Datatypes.S (60 - List.length rs))%nat
    by (unfold enough_fuel; lia).
  destruct (while_poll_pending_prefix url rs (Datatypes.S (60 - List.length rs))
              {| attempts := 0; video_url := PyNone |} w _ Hr Hp)
    as (w1 & s1 & -> & Ha & Hv & Ht & Hh & Hfi & Hio & Hcl & Hso).
  { unfold max_attempts. cbn. lia. }
  rewrite while_loop_step. unfold poll_cond, max_attempts.
  cbn [attempts] in Ha.
  replace (attempts s1 <? 60) with true by (symmetry; apply Z.ltb_lt; lia).
  destruct (poll_body_failure url s1 w1 bad msg _ Hh Hc)
    as (w' & -> & Ht' & Hfi' & _).
  exists w'. split; [reflexivity|].
  rewrite Ht', Ht, Hfi', <- app_assoc. split; auto.
Qed.

End render_facts.

Module render_claims.
Import video_edit poll_facts render_facts stage_success.

Definition video_path (script_path style resolution timestamp : string)
  : string :=
  path_join output_dir
    ("video_" +:+ path_stem script_path +:+ "_" +:+ style +:+ "_"
     +:+ resolution +:+ "_" +:+ timestamp +:+ ".mp4").

(** X16.  When the job is created, fewer than sixty status replies say it is
    still rendering and the next one says it is completed and names a URL,
    [create_video] downloads that URL and writes the bytes it gets to one
    file under the output directory, whose path it returns.  It has then
    asked for the status once more than it has slept, and slept five seconds
    per pending reply. *)
Theorem create_video_downloads_the_result (cfg : Config)
    (script_path style resolution content : string) (w : World)
    (post done video : Response) (rs : list Response) (u : pyvalue)
    (rest : list (exn + Response)) :
  PIKA_API_KEY cfg <> "" ->
  files w !! script_path = Some content ->
  io_calm 3 w = true ->
  http_replies (remote w) =
    (inr post :: map inr rs ++ inr done :: inr video :: rest)%list ->
  has_job_id post = true ->
  Forall (fun r => is_pending r = true) rs ->
  (List.length rs < 60)%nat ->
  completed_with done = Some u ->
  truthy u = true ->
  resp_ok video = true ->
  let path :=
    video_path script_path style resolution
      (calendar (clock w) "%Y%m%d_%H%M%S") in
  exists w',
    create_video cfg script_path style resolution w = (Ret path, w')
    /\ files w' =
       <[path := string_of_list_byte (resp_content video)]> (files w)
    /\ count_gets (trace w') =
       (count_gets (trace w) + List.length rs + 2)%nat
    /\ slept (trace w') = slept (trace w) + 5 * Z.of_nat (List.length rs)
    /\ http_replies (remote w') = rest.
Proof.
  intros Hkey Hf Hio Hr Hpost Hp Hlen Hc Hu Hv path.
  unfold has_job_id in Hpost. apply andb_prop in Hpost.
  destruct Hpost as [Hok Hj].
  destruct (resp_json post) as [[| | | | | |d]|] eqn:Hjson; try discriminate.
  apply bool_decide_eq_true_1 in Hj. destruct Hj as [id Hid].
  unfold create_video, create_video_fuel.
  destruct (String.eqb_spec (PIKA_API_KEY cfg) ""); [contradiction|].
  unfold path_exists, read_file, requests_post, requests_get, take_reply,
    response_json, now_strftime, mkdir, write_file, io_gate, print, log.
  unfold bind, ret, raise, try_except, lift.
  cbn -[poll strip prefix join split_char path_stem String.append].
  rewrite Hf. cbn -[poll strip prefix join split_char path_stem String.append].
  destruct (io_calm_3 w Hio) as (fs & [Hfs | [[Hfs _] | [[Hfs _] | [Hfs _]]]]);
    rewrite Hfs;
    cbn -[poll strip prefix join split_char path_stem String.append];
    rewrite ?Hf;
    cbn -[poll strip prefix join split_char path_stem String.append];
    rewrite Hr;
    cbn -[poll strip prefix join split_char path_stem String.append];
    rewrite Hok, Hjson;
    cbn -[poll strip prefix join split_char path_stem String.append];
    rewrite Hid;
    cbn -[poll strip prefix join split_char path_stem String.append].
  all: match goal with
       | |- context [poll enough_fuel ?url ?w0] =>
         destruct (poll_completes url w0 rs done u (inr video :: rest))
           as (w1 & Hrun & Ht & Hh & Hfi & Hfa & Hcl);
         [ reflexivity | exact Hp | exact Hlen | exact Hc | exact Hu | ];
         rewrite Hrun; cbn -[turns] in Ht, Hh, Hfi, Hfa, Hcl
       end.
  all: cbn -[poll strip prefix join split_char path_stem String.append].
  all: rewrite Hu;
    cbn -[poll strip prefix join split_char path_stem String.append];
    rewrite Hh;
    cbn -[poll strip prefix join split_char path_stem String.append];
    rewrite Hv;
    cbn -[poll strip prefix join split_char path_stem String.append];
    repeat (first [rewrite Hfa | rewrite Hfs];
            cbn -[poll strip prefix join split_char path_stem String.append]).
  all: eexists; split;
    [unfold path, video_path; rewrite Hcl; reflexivity|].
  all: cbn -[turns path_stem String.append]; rewrite Hfi, ?Hcl, Ht.
  all: cbn -[turns path_stem String.append].
  all: rewrite !count_gets_app, !slept_app, count_gets_full_turns,
         slept_full_turns; cbn -[path_stem String.append].
  all: repeat split; try reflexivity; lia.
Qed.

(** X17.  When, after fewer than sixty pending replies, the status request
    is refused, or the job is reported failed, or completed without a URL,
    [create_video] raises at once with the matching message: it does not
    sleep again, asks nothing more and writes no file. *)
Theorem create_video_stops_on_a_bad_status (cfg : Config)
    (script_path style resolution content : string) (w : World)
    (post bad : Response) (rs : list Response) (msg : string)
    (rest : list (exn + Response)) :
  PIKA_API_KEY cfg <> "" ->
  files w !! script_path = Some content ->
  io_passes w = true ->
  http_replies (remote w) = (inr post :: map inr rs ++ inr bad :: rest)%list ->
  has_job_id post = true ->
  Forall (fun r => is_pending r = true) rs ->
  (List.length rs < 60)%nat ->
  poll_failure bad = Some msg ->
  exists w',
    create_video cfg script_path style resolution w =
      (Raise (Exception ("Failed to create video: " +:+ msg)), w')
    /\ files w' = files w
    /\ count_gets (trace w') =
       (count_gets (trace w) + List.length rs + 1)%nat
    /\ slept (trace w') = slept (trace w) + 5 * Z.of_nat (List.length rs).
Proof.
  intros Hkey Hf Hio Hr Hpost Hp Hlen Hc.
  unfold has_job_id in Hpost. apply andb_prop in Hpost.
  destruct Hpost as [Hok Hj].
  destruct (resp_json post) as [[| | | | | |d]|] eqn:Hjson; try discriminate.
  apply bool_decide_eq_true_1 in Hj. destruct Hj as [id Hid].
  unfold create_video, create_video_fuel.
  destruct (String.eqb_spec (PIKA_API_KEY cfg) ""); [contradiction|].
  unfold io_passes in Hio.
  unfold path_exists, read_file, requests_post, take_reply, response_json,
    mkdir, write_file, io_gate, print, log.
  unfold bind, ret, raise, try_except, lift.
  cbn -[poll strip prefix join split_char String.append].
  rewrite Hf. cbn -[poll strip prefix join split_char String.append].
  destruct (io_faults w) as [|[m|] fs] eqn:Hfaults; try discriminate;
    cbn -[poll strip prefix join split_char String.append];
    rewrite ?Hf; cbn -[poll strip prefix join split_char String.append];
    rewrite Hr; cbn -[poll strip prefix join split_char String.append];
    rewrite Hok, Hjson; cbn -[poll strip prefix join split_char String.append];
    rewrite Hid; cbn -[poll strip prefix join split_char String.append].
  all: match goal with
       | |- context [poll enough_fuel ?url ?w0] =>
         destruct (poll_fails url w0 rs bad msg rest)
           as (w1 & Hrun & Ht & Hfi);
         [ reflexivity | exact Hp | exact Hlen | exact Hc | ];
         rewrite Hrun; cbn -[turns] in Ht, Hfi
       end.
  all: cbn -[turns String.append].
  all: eexists; split; [reflexivity|].
  all: rewrite Hfi, Ht; cbn -[turns].
  all: rewrite !count_gets_app, !slept_app, count_gets_full_turns,
         slept_full_turns; cbn.
  all: repeat split; try reflexivity; lia.
Qed.

End render_claims.

(** * The HTTP service when things work *)

Module service_facts.
Import api_server api_facts stage_success.

(** The name [generate_unique_filename] builds from a timestamp and a draw
    of the entropy source. *)
Definition unique_name (pre extension timestamp : string) (draw : list byte)
  : string :=
  pre +:+ "_" +:+ timestamp +:+ "_"
  +:+ hex (firstn 4 (draw ++ repeat "000"%byte 4)) +:+ "." +:+ extension.

Lemma generate_unique_filename_run (pre extension : string) (w : World) :
  exists w',
    generate_unique_filename pre extension w =
      (Ret (unique_name pre extension (calendar (clock w) "%Y%m%d_%H%M%S")
              (next_draw w)), w')
    /\ files w' = files w /\ io_faults w' = io_faults w
    /\ clock w' = clock w /\ stdout w' = stdout w /\ trace w' = trace w
    /\ remote w' = remote w.
Proof.
  unfold generate_unique_filename, uuid4_prefix, draw_random, now_strftime,
    next_draw, unique_name, bind, ret.
  destruct (urandom w) as [|r rs]; eexists; (split; [reflexivity|]);
    cbn; auto 10.
Qed.

Lemma append_cancel (a x y : string) : a +:+ x = a +:+ y -> x = y.
Proof.
  induction a as [|c a IH]; [auto|].
  rewrite !reference.append_cons. intros H. injection H as H. auto.
Qed.

Lemma hex_dot_inj (a b : list byte) (x y : string) :
  hex a +:+ "." +:+ x = hex b +:+ "." +:+ y -> a = b /\ x = y.
Proof.
  intros H.
  pose proof (reference.unhex_hex a x) as Ha.
  pose proof (reference.unhex_hex b y) as Hb.
  change (String reference.dot x) with ("." +:+ x) in Ha.
  change (String reference.dot y) with ("." +:+ y) in Hb.
  rewrite H, Hb in Ha. injection Ha as -> ->. auto.
Qed.

Lemma unique_name_inj (pre e1 e2 ts : string) (d1 d2 : list byte) :
  unique_name pre e1 ts d1 = unique_name pre e2 ts d2 ->
  firstn 4 (d1 ++ repeat "000"%byte 4) = firstn 4 (d2 ++ repeat "000"%byte 4)
  /\ e1 = e2.
Proof.
  unfold unique_name. intros H.
  do 4 apply append_cancel in H.
  now apply hex_dot_inj.
Qed.

Lemma save_uploaded_file_run (f : UploadFile) (directory : string) (w : World) :
  let path :=
    path_join directory
      (unique_name "upload" (List.last (split_char "." (filename f)) "")
         (calendar (clock w) "%Y%m%d_%H%M%S") (next_draw w)) in
  exists w',
    save_uploaded_file f directory w =
      (if io_passes w then Ret path
       else Raise (OSError (match io_faults w with
                            | Some msg :: _ => msg
                            | _ => ""
                            end)), w')
    /\ files w' =
       (if io_passes w then <[path := string_of_list_byte (file f)]> (files w)
        else files w)
    /\ clock w' = clock w.
Proof.
  intros path. unfold save_uploaded_file, bind.
  destruct (generate_unique_filename_run "upload"
              (List.last (split_char "." (filename f)) "") w)
    as (w1 & -> & Hfi & Hfa & Hcl & _).
  unfold write_file, io_gate, io_passes, bind, ret. rewrite Hfa.
  destruct (io_faults w) as [|[m|] fs]; cbn; eexists;
    (split; [reflexivity|]); cbn; rewrite ?Hfi; auto.
Qed.

End service_facts.

Module service_claims.
Import api_server api_facts stage_success service_facts.

(** X19.  Within one second, two names made by [generate_unique_filename]
    for the same prefix and extension are equal exactly when the first four
    octets of the two random draws are: the names are as unique as
    thirty-two random bits. *)
Theorem unique_filenames_follow_the_draw (pre extension : string)
    (w1 w2 : World) :
  calendar (clock w1) "%Y%m%d_%H%M%S" = calendar (clock w2) "%Y%m%d_%H%M%S" ->
  (4 <= List.length (next_draw w1))%nat ->
  (4 <= List.length (next_draw w2))%nat ->
  fst (generate_unique_filename pre extension w1)
    = fst (generate_unique_filename pre extension w2)
  <-> firstn 4 (next_draw w1) = firstn 4 (next_draw w2).
Proof.
  intros Hts H1 H2.
  destruct (generate_unique_filename_run pre extension w1) as (w1' & -> & _).
  destruct (generate_unique_filename_run pre extension w2) as (w2' & -> & _).
  cbn [fst]. rewrite Hts.
  assert (E : forall d : list byte, (4 <= List.length d)%nat ->
              firstn 4 (d ++ repeat "000"%byte 4) = firstn 4 d).
  { intros d Hd. rewrite firstn_app.
    replace (4 - List.length d)%nat with 0%nat by lia.
    cbn. apply app_nil_r. }
  split.
  - intros H. injection H as H. apply unique_name_inj in H.
    destruct H as [H _]. now rewrite !E in H.
  - intros H. unfold unique_name. now rewrite !E, H.
Qed.


(** X21.  Deleting an existing output file answers success and removes that
    file and no other; when the removal is refused, nothing is removed and
    the answer is a 500.  A name that is not there (and is not the directory
    itself) is answered with a 500 whose message holds the 404, and [..]
    with a 500 whose message holds the 400; neither changes anything. *)
Theorem delete_file_removes_one_file (cfg : Config) (name : string)
    (w : World) :
  let path := path_join OUTPUT_DIR name in
  let failed detail w' :=
    app cfg (DELETE_delete_file name) w =
      (Ret (JSONResponse 500
              (error_content ("Failed to delete file: " +:+ detail)
                 (isoformat_now (clock w)))), w')
    /\ files w' = files w in
  (name = ".." -> failed "400: Invalid file path" w)
  /\ (name <> ".." -> name <> "." -> files w !! path = None ->
      failed "404: File not found" w)
  /\ (forall content,
        name <> ".." -> files w !! path = Some content ->
        exists resp w',
          app cfg (DELETE_delete_file name) w = (Ret resp, w')
          /\ if io_passes w then
               resp = render {| status := "success";
                                message := "File " +:+ name
                                           +:+ " deleted successfully";
                                data := None |}
               /\ files w' = delete path (files w)
             else response_status resp = 500 /\ files w' = files w).
Proof.
  intros path failed. unfold failed, app. split; [|split].
  - intros ->. split; [|reflexivity]. reflexivity.
  - intros H1 _ Hf. split; [|reflexivity].
    apply serve_http_exception.
    unfold delete_file, stays_inside, try_except, path_exists, bind, ret, raise.
    destruct (String.eqb_spec name ".."); [contradiction|]. cbn [negb].
    fold path. now rewrite Hf.
  - intros content H1 Hf.
    assert (Hend : exists w',
      delete_file name w =
        (if io_passes w then
           Ret {| status := "success";
                  message := "File " +:+ name +:+ " deleted successfully";
                  data := None |}
         else Raise (HTTPException 500
                       ("Failed to delete file: " +:+
                        match io_faults w with
                        | Some msg :: _ => msg
                        | _ => ""
                        end)), w')
      /\ files w' = (if io_passes w then delete path (files w) else files w)).
    { unfold delete_file, stays_inside, try_except, path_exists, unlink,
        io_gate, io_passes, bind, ret, raise.
      destruct (String.eqb_spec name ".."); [contradiction|]. cbn [negb].
      fold path. rewrite Hf. cbn -[String.append].
      destruct (io_faults w) as [|[m|] fs]; cbn -[String.append];
        rewrite ?Hf; eexists; (split; [reflexivity|]); reflexivity. }
    destruct Hend as (w' & Hend & Hfi).
    destruct (io_passes w).
    + eexists _, w'. split; [apply serve_returned; exact Hend|]. auto.
    + eexists _, w'. split; [apply serve_http_exception; exact Hend|]. auto.
Qed.

End service_claims.

Module endpoint_claims.
Import api_server api_facts stage_success service_facts.


(** X23.  [create_video_endpoint] stores the upload before it starts the
    video stage and never removes it: when the stage fails for want of the
    Pika key the client gets a 500 and the uploaded script stays in the
    output directory. *)
Theorem failed_video_request_keeps_the_upload (cfg : Config) (f : UploadFile)
    (style resolution : string) (w : World) :
  filename f <> "" ->
  extension_allowed (filename f) = true ->
  io_passes w = true ->
  PIKA_API_KEY cfg = "" ->
  let path :=
    path_join OUTPUT_DIR
      (unique_name "upload" (List.last (split_char "." (filename f)) "")
         (calendar (clock w) "%Y%m%d_%H%M%S") (next_draw w)) in
  exists w',
    app cfg (POST_create_video f style resolution) w =
      (Ret (JSONResponse 500
              (error_content
                 "Failed to create video: Pika Labs API key not found. Please set PIKA_API_KEY in config.py or environment variables."
                 (isoformat_now (clock w)))), w')
    /\ files w' = <[path := string_of_list_byte (file f)]> (files w).
Proof.
  intros Hname Hext Hio Hkey path.
  destruct (save_uploaded_file_run f OUTPUT_DIR w) as (w' & Hrun & Hfi & Hcl).
  fold path in Hrun, Hfi. rewrite Hio in Hrun, Hfi.
  exists w'. split; [|exact Hfi].
  rewrite <- Hcl. apply serve_http_exception.
  unfold create_video_endpoint, try_except, bind, ret, raise.
  destruct (String.eqb_spec (filename f) ""); [contradiction|].
  rewrite Hext. cbn [negb]. rewrite Hrun.
  unfold video_edit.create_video, video_edit.create_video_fuel, bind, raise.
  rewrite Hkey. reflexivity.
Qed.

(** X24.  [video_edit.run] without a script uses
    [output/default_script.txt]: an existing one is taken as it is, a
    missing one is first written with a fixed sentence.  The key is only
    checked afterwards, so a run that fails for want of the key has still
    left the default script behind. *)
Theorem run_without_a_script_writes_a_default (cfg : Config)
    (style resolution : string) (w : World) :
  let f := path_join output_dir "default_script.txt" in
  (forall c,
      files w !! f = Some c ->
      video_edit.run cfg None style resolution w =
        video_edit.create_video cfg f style resolution w)
  /\ (files w !! f = None ->
      io_calm 2 w = true ->
      exists w1,
        video_edit.run cfg None style resolution w =
          video_edit.create_video cfg f style resolution w1
        /\ files w1 =
           <[f := "This is a default script for video generation."]> (files w)
        /\ trace w1 = trace w /\ remote w1 = remote w
        /\ (PIKA_API_KEY cfg = "" ->
            exists msg,
              video_edit.run cfg None style resolution w =
                (Raise (ValueError msg), w1))).
Proof.
  intros f. split.
  - intros c Hf. unfold video_edit.run, path_exists, bind, ret.
    fold f. rewrite Hf. reflexivity.
  - intros Hf Hio. unfold video_edit.run, path_exists, mkdir, write_file,
      io_gate, bind, ret.
    fold f. rewrite Hf. cbn -[video_edit.create_video f].
    unfold io_calm in Hio.
    destruct (io_faults w) as [|[m|] [|[m'|] fs]] eqn:Hfs;
      try discriminate Hio; cbn -[video_edit.create_video f];
      rewrite ?Hfs; cbn -[video_edit.create_video f];
      eexists; (split; [reflexivity|]); cbn -[f];
      (split; [reflexivity|]); (split; [reflexivity|]);
      (split; [reflexivity|]);
      intros Hkey; unfold video_edit.create_video,
        video_edit.create_video_fuel, bind, raise; rewrite Hkey;
      eexists; reflexivity.
Qed.

End endpoint_claims.

(** * Concrete runs *)

Module reference_runs.
Import reference_world reference_service.

(** A key file that cannot be read. *)
Definition world_locked : World :=
  set_io_faults [Some "Permission denied"]
    (set_files {[ ".chatgpt_key" := "old key" ]} world0).


(** A key file that holds something else. *)
Definition world_bad_key : World :=
  set_files {[ ".chatgpt_key" := "not a key" ]} world0.

Definition login0 : @chatgpt_login.ChatGPTLogin reference.null_fernet :=
  @chatgpt_login.Build_ChatGPTLogin reference.null_fernet manager0.

(** Credentials saved earlier. *)
Definition world_stored : World :=
  snd (@chatgpt_login.save_credentials reference.null_fernet reference.flat_json
         manager0 "user@example.com" "secret" world0).



Definition job_done : Response :=
  json_reply [("status", PyStr "completed");
              ("video", PyStr "https://cdn.pika.art/v/job-1.mp4")].

Definition job_failed : Response := json_reply [("status", PyStr "failed")].

Definition video_bytes : Response :=
  {| resp_ok := true; resp_status_code := 200; resp_text := "";
     resp_json := None; resp_content := ["000"%byte; "001"%byte] |}.

Definition world_with_replies (rs : list (exn + Response)) : World :=
  set_remote
    {| openai_replies := []; elevenlabs_replies := [];
       runway_replies := []; http_replies := rs |} world_rendering.

Definition world_finishing : World :=
  world_with_replies
    [inr job_created; inr still_rendering; inr still_rendering; inr job_done;
     inr video_bytes].

Definition world_failing : World :=
  world_with_replies [inr job_created; inr still_rendering; inr job_failed].

Definition world_drawing (r : list byte) : World := set_urandom [r] world0.

Definition notes : api_server.UploadFile :=
  {| api_server.filename := "notes.txt";
     api_server.file := ["104"%byte; "105"%byte] |}.

Definition cfg_no_pika : Config :=
  {| OPENAI_API_KEY := "sk-test"; ELEVENLABS_API_KEY := "el-test";
     PIKA_API_KEY := "";
     openai_installed := true; elevenlabs_installed := true |}.

End reference_runs.

Lemma generated_key_is_reused_witness :
  exists m1 w1 m2 w2,
    @chatgpt_login.__init__ reference.null_fernet ".chatgpt_key"
      reference_world.world0 = (Ret m1, w1)
    /\ @chatgpt_login.__init__ reference.null_fernet ".chatgpt_key" w1
       = (Ret m2, w2)
    /\ m2 = m1.
Proof.
  destruct (@key_claims.generated_key_is_reused reference.null_fernet
              ".chatgpt_key" reference_world.world0 eq_refl eq_refl)
    as (m1 & w1 & m2 & w2 & H1 & H2 & _ & H3 & _).
  exists m1, w1, m2, w2. auto.
Defined.

Lemma unreadable_key_is_replaced_witness :
  exists m1 w1,
    @chatgpt_login.__init__ reference.null_fernet ".chatgpt_key"
      reference_runs.world_locked = (Ret m1, w1)
    /\ files w1 !! ".chatgpt_key" <> Some "old key".
Proof.
  destruct (@key_claims.unreadable_key_is_replaced reference.null_fernet
              ".chatgpt_key" "old key" reference_runs.world_locked
              "Permission denied" [] eq_refl eq_refl eq_refl)
    as (m1 & w1 & H1 & _ & H2 & _).
  exists m1, w1. split; [exact H1|]. rewrite H2. discriminate.
Defined.


Lemma rejected_key_fails_construction_witness :
  exists w1,
    @chatgpt_login.__init__ strict_reference.strict_fernet ".chatgpt_key"
      reference_runs.world_bad_key
    = (Raise (ValueError "Fernet key must be 32 url-safe base64-encoded bytes."),
       w1)
    /\ files w1 = files reference_runs.world_bad_key.
Proof.
  destruct (@key_claims.rejected_key_fails_construction
              strict_reference.strict_fernet
              ".chatgpt_key" "not a key" reference_runs.world_bad_key
              (ValueError "Fernet key must be 32 url-safe base64-encoded bytes.")
              eq_refl eq_refl eq_refl)
    as (w1 & H1 & H2 & _).
  exists w1. auto.
Defined.

Lemma last_save_wins_witness :
  exists w1 w2 record,
    @chatgpt_login.save_credentials reference.null_fernet reference.flat_json
      reference_world.manager0 "old@example.com" "old" reference_world.world0
    = (Ret true, w1)
    /\ @chatgpt_login.save_credentials reference.null_fernet reference.flat_json
         reference_world.manager0 "new@example.com" "new" w1 = (Ret true, w2)
    /\ fst (@chatgpt_login.load_credentials reference.null_fernet
              reference.flat_json reference_world.manager0 w2)
       = Ret (Some record)
    /\ getitem record "email" = Ret (PyStr "new@example.com")
    /\ getitem record "password" = Ret (PyStr "new").
Proof.
  apply (@lookup_claims.last_save_wins reference.null_fernet
           reference.flat_json reference_world.manager0).
  reflexivity.
Defined.


Lemma stored_credentials_second_witness :
  exists w',
    @chatgpt_login.get_credentials reference.null_fernet reference.flat_json
      reference_runs.login0 reference_runs.world_stored
    = (Ret (PyStr "user@example.com", PyStr "secret"), w')
    /\ stdin w' = stdin reference_runs.world_stored
    /\ files w' = files reference_runs.world_stored.
Proof.
  eapply (@lookup_claims.stored_credentials_second reference.null_fernet
            reference.flat_json reference_runs.login0
            reference_runs.world_stored);
    [reflexivity | reflexivity | reflexivity | vm_compute; reflexivity
    | reflexivity | reflexivity].
Defined.





Lemma create_video_downloads_the_result_witness :
  exists w',
    video_edit.create_video reference_service.cfg0
      "output/script.txt" "modern" "1080p" reference_runs.world_finishing
    = (Ret "output/video_script_modern_1080p_20231114_221320.mp4", w')
    /\ video_edit.count_gets (trace w') = 4%nat
    /\ video_edit.slept (trace w') = 10.
Proof.
  destruct (render_claims.create_video_downloads_the_result
              reference_service.cfg0
              "output/script.txt" "modern" "1080p" "A short script."
              reference_runs.world_finishing
              reference_service.job_created reference_runs.job_done
              reference_runs.video_bytes
              [reference_service.still_rendering;
               reference_service.still_rendering]
              (PyStr "https://cdn.pika.art/v/job-1.mp4") [])
    as (w' & H1 & _ & H2 & H3 & _);
    [ discriminate | reflexivity | reflexivity | reflexivity | reflexivity
    | repeat constructor | cbn; lia | reflexivity | reflexivity
    | reflexivity | ].
  exists w'. split; [exact H1|]. split; [exact H2 | exact H3].
Defined.

Lemma create_video_stops_on_a_bad_status_witness :
  exists w',
    video_edit.create_video reference_service.cfg0
      "output/script.txt" "modern" "1080p" reference_runs.world_failing
    = (Raise (Exception "Failed to create video: Video generation failed"), w')
    /\ files w' = files reference_runs.world_failing
    /\ video_edit.count_gets (trace w') = 2%nat
    /\ video_edit.slept (trace w') = 5.
Proof.
  destruct (render_claims.create_video_stops_on_a_bad_status
              reference_service.cfg0
              "output/script.txt" "modern" "1080p" "A short script."
              reference_runs.world_failing
              reference_service.job_created reference_runs.job_failed
              [reference_service.still_rendering]
              "Video generation failed" [])
    as (w' & H1 & H2 & H3 & H4);
    [ discriminate | reflexivity | reflexivity | reflexivity | reflexivity
    | repeat constructor | cbn; lia | reflexivity | ].
  exists w'. auto.
Defined.


Lemma unique_filenames_follow_the_draw_witness :
  fst (api_server.generate_unique_filename "upload" "txt"
         (reference_runs.world_drawing
            ["001"%byte; "002"%byte; "003"%byte; "004"%byte; "005"%byte]))
  <> fst (api_server.generate_unique_filename "upload" "txt"
            (reference_runs.world_drawing
               ["001"%byte; "002"%byte; "003"%byte; "255"%byte; "005"%byte])).
Proof.
  intros H.
  apply (service_claims.unique_filenames_follow_the_draw "upload" "txt"
           (reference_runs.world_drawing
              ["001"%byte; "002"%byte; "003"%byte; "004"%byte; "005"%byte])
           (reference_runs.world_drawing
              ["001"%byte; "002"%byte; "003"%byte; "255"%byte; "005"%byte]))
    in H; [discriminate H | reflexivity | cbn; lia | cbn; lia].
Defined.



Lemma failed_video_request_keeps_the_upload_witness :
  exists resp w',
    api_server.app reference_runs.cfg_no_pika
      (api_server.POST_create_video reference_runs.notes "modern" "1080p")
      (reference_runs.world_drawing
         ["001"%byte; "002"%byte; "003"%byte; "004"%byte])
    = (Ret resp, w')
    /\ api_server.response_status resp = 500
    /\ files w' !! "output/upload_20231114_221320_01020304.txt" = Some "hi".
Proof.
  destruct (endpoint_claims.failed_video_request_keeps_the_upload
              reference_runs.cfg_no_pika reference_runs.notes "modern" "1080p"
              (reference_runs.world_drawing
                 ["001"%byte; "002"%byte; "003"%byte; "004"%byte]))
    as (w' & H1 & H2);
    [discriminate | reflexivity | reflexivity | reflexivity |].
  eexists _, w'. split; [exact H1|]. split; [reflexivity|].
  rewrite H2. reflexivity.
Defined.
